(** * idx.py: parcel lookup with a web-scraping fallback

    A shallow embedding of [src/idx.py] and the properties of its fallback
    path: the table extraction done with BeautifulSoup, the browser life
    cycle of [scrape_and_extract_zones], the session provisioning of
    [get_web_scraped_data] and the tier selection of the endpoint
    [get_parcel_details_and_explanation].

    Conventions of the embedding.
    - Python [str] values are Rocq strings whose characters are the code
      points 0..255.
    - A parsed document is a tree of tags and text nodes; an element handle
      (a bs4 [Tag] object) is the path of child indices leading to it from
      the root of the document, and Python's [None] is [None].
    - Calls that leave the process (SQLite, the session broker, Playwright,
      the generation service) take their outcome from a [world] record, one
      field per call site, and are recorded in a trace.
    - The builtins ([int], [repr], [str.strip]) are those of CPython 3.11
      with its default settings.
    - [print] calls are not modelled. *)

From Stdlib Require Import ZArith Ascii String.
From stdpp Require Import gmap strings list pretty.

Local Open Scope Z_scope.

(** ** Text *)

Module Text.

(** [str.isspace] on the code points 0..255. *)
Definition isspace (c : ascii) : bool :=
  let n := nat_of_ascii c in
  ((9 <=? n)%nat && (n <=? 13)%nat) || ((28 <=? n)%nat && (n <=? 32)%nat)
  || (n =? 133)%nat || (n =? 160)%nat.

(** [s.lstrip()], [s.rstrip()] and [s.strip()]. *)
Fixpoint lstrip (s : string) : string :=
  match s with
  | EmptyString => EmptyString
  | String c s' => if isspace c then lstrip s' else s
  end.

Fixpoint rstrip (s : string) : string :=
  match s with
  | EmptyString => EmptyString
  | String c s' =>
      match rstrip s' with
      | EmptyString => if isspace c then EmptyString else String c EmptyString
      | r => String c r
      end
  end.

Definition strip (s : string) : string := rstrip (lstrip s).

(** [needle in hay]. *)
Fixpoint contains (needle hay : string) : bool :=
  String.prefix needle hay ||
  match hay with
  | EmptyString => false
  | String _ hay' => contains needle hay'
  end.

(** [s.replace(c, "")] for a one-character [c]. *)
Fixpoint remove_char (c : ascii) (s : string) : string :=
  match s with
  | EmptyString => EmptyString
  | String d s' => if Ascii.eqb c d then remove_char c s' else String d (remove_char c s')
  end.

(** ["".join(parts)]. *)
Definition join (parts : list string) : string := String.concat "" parts.

(** No character of [s] is a blank. *)
Fixpoint no_space (s : string) : bool :=
  match s with
  | EmptyString => true
  | String c s' => negb (isspace c) && no_space s'
  end.

(** [squeezed s t]: [t] is [s] with some of its blanks left out. *)
Inductive squeezed : string → string → Prop :=
| squeezed_nil : squeezed EmptyString EmptyString
| squeezed_keep c s t : squeezed s t → squeezed (String c s) (String c t)
| squeezed_drop c s t : isspace c = true → squeezed s t → squeezed (String c s) t.

End Text.

(** ** The built-in [int] and [repr] on strings *)

Module Builtins.

Definition hex_digit (n : nat) : ascii :=
  ascii_of_nat (if (n <? 10)%nat then 48 + n else 87 + n)%nat.

(** [str.isprintable] on the code points 0..255. *)
Definition isprintable (c : ascii) : bool :=
  let n := nat_of_ascii c in
  negb ((n <? 32)%nat || ((127 <=? n)%nat && (n <=? 160)%nat) || (n =? 173)%nat).

Definition double_quote : ascii := ascii_of_nat 34.

Definition has_char (c : ascii) (s : string) : bool :=
  existsb (Ascii.eqb c) (list_ascii_of_string s).

(** [repr(s)]: single quotes unless [s] holds a single quote and no double
    quote; the quote and the backslash are escaped, as are tab, newline,
    carriage return and every character that is not printable. *)
Definition repr_char (quote c : ascii) : string :=
  let n := nat_of_ascii c in
  if Ascii.eqb c quote || Ascii.eqb c "\"%char then String "\"%char (String c EmptyString)
  else if (n =? 9)%nat then "\t"
  else if (n =? 10)%nat then "\n"
  else if (n =? 13)%nat then "\r"
  else if isprintable c then String c EmptyString
  else String "\"%char (String "x"%char
         (String (hex_digit (n / 16)) (String (hex_digit (n mod 16)) EmptyString))).

Definition repr (s : string) : string :=
  let quote : ascii :=
    if has_char "'"%char s && negb (has_char double_quote s)
    then double_quote else "'"%char in
  String quote
    (Text.join (map (repr_char quote) (list_ascii_of_string s)) +:+ String quote EmptyString).

(** The blanks [int] skips around a literal. *)
Definition int_space (c : ascii) : bool :=
  let n := nat_of_ascii c in
  ((9 <=? n)%nat && (n <=? 13)%nat) || (n =? 32)%nat || (n =? 133)%nat || (n =? 160)%nat.

Definition digit_of (c : ascii) : option Z :=
  let n := nat_of_ascii c in
  if ((48 <=? n)%nat && (n <=? 57)%nat) then Some (Z.of_nat n - 48) else None.

(** The run of digits and underscores at the head of [l], as
    [PyLong_FromString] scans it: the number of digits, their value and
    what follows the run. Two underscores in a row or an underscore at the
    end of the run give [None]. [prev_underscore] tells whether the
    character just read was an underscore. *)
Fixpoint scan_digits (prev_underscore : bool) (digits : nat) (acc : Z) (l : list ascii)
  : option (nat * Z * list ascii) :=
  match l with
  | c :: l' =>
      match digit_of c with
      | Some d => scan_digits false (S digits) (10 * acc + d) l'
      | None =>
          if Ascii.eqb c "_"%char
          then if prev_underscore then None else scan_digits true digits acc l'
          else if prev_underscore then None else Some (digits, acc, l)
      end
  | [] => if prev_underscore then None else Some (digits, acc, [])
  end.

Fixpoint drop_int_space (l : list ascii) : list ascii :=
  match l with
  | c :: l' => if int_space c then drop_int_space l' else l
  | [] => []
  end.

(** [sys.get_int_max_str_digits()]: the default, which the program does
    not change. *)
Definition int_max_str_digits : nat := 4300.

(** The two ways [int(s)] fails on a string: the string is no literal, or
    the literal has more digits than the limit. *)
Inductive int_error :=
| InvalidLiteral
| ExceedsLimit (digits : nat).

(** [int(s)] for a string [s]: blanks and a sign are skipped, the run of
    digits is scanned and counted, an underscore at either end of the run
    or twice in a row is rejected, then the digit limit is checked, before
    what follows the run is looked at, and last an empty run or anything
    but blanks after the run is rejected. *)
Definition int_of_str (s : string) : int_error + Z :=
  let l := drop_int_space (list_ascii_of_string s) in
  let '(sign, body) :=
    match l with
    | c :: l' =>
        if Ascii.eqb c "+"%char then (1, l')
        else if Ascii.eqb c "-"%char then (-1, l')
        else (1, l)
    | [] => (1, [])
    end in
  match body with
  | c :: _ =>
      if Ascii.eqb c "_"%char then inl InvalidLiteral
      else
        match scan_digits false 0 0 body with
        | None => inl InvalidLiteral
        | Some (digits, acc, rest) =>
            if (int_max_str_digits <? digits)%nat then inl (ExceedsLimit digits)
            else if (digits =? 0)%nat then inl InvalidLiteral
            else match drop_int_space rest with
                 | [] => inr (sign * acc)
                 | _ :: _ => inl InvalidLiteral
                 end
        end
  | [] => inl InvalidLiteral
  end.

End Builtins.


(** ** Documents as BeautifulSoup sees them *)

Module Soup.

(** A node of the parse tree: a text node or a tag with its attribute
    dictionary and its children. The [BeautifulSoup] object itself is the tag
    at the root. Comments and the contents of [script] and [style]
    elements, which [get_text] passes over, are not part of the tree. *)
#[local] Unset Elimination Schemes.
Inductive node :=
| NavigableString (s : string)
| Tag (name : string) (attrs : gmap string string) (contents : list node).
#[local] Set Elimination Schemes.

(** Induction on a node with the hypothesis for every child. *)
Section NodeInduction.
Variable P : node → Prop.
Hypothesis on_string : ∀ s, P (NavigableString s).
Hypothesis on_tag : ∀ name attrs cs, Forall P cs → P (Tag name attrs cs).

Fixpoint node_ind (n : node) : P n :=
  match n with
  | NavigableString s => on_string s
  | Tag name attrs cs =>
      on_tag name attrs cs
        ((fix all (l : list node) : Forall P l :=
            match l with
            | [] => @List.Forall_nil node P
            | c :: l' => @List.Forall_cons node P c l' (node_ind c) (all l')
            end) cs)
  end.
End NodeInduction.

(** An element handle: the child indices from the root down to the node. *)
Abbreviation path := (list nat).

Definition contents_of (n : node) : list node :=
  match n with
  | NavigableString _ => []
  | Tag _ _ cs => cs
  end.

Definition is_tag (name : string) (n : node) : bool :=
  match n with
  | NavigableString _ => false
  | Tag nm _ _ => String.eqb nm name
  end.

(** [tag.get(key)]. *)
Definition get_attr (n : node) (key : string) : option string :=
  match n with
  | NavigableString _ => None
  | Tag _ attrs _ => attrs !! key
  end.

Fixpoint at_path (n : node) (p : path) : option node :=
  match p with
  | [] => Some n
  | i :: p' =>
      match contents_of n !! i with
      | Some c => at_path c p'
      | None => None
      end
  end.

(** The text nodes below a node, in document order. *)
Fixpoint strings (n : node) : list string :=
  match n with
  | NavigableString s => [s]
  | Tag _ _ cs => List.concat (map strings cs)
  end.

(** [tag.get_text()]. *)
Definition get_text (n : node) : string := Text.join (strings n).

(** [tag.get_text(strip=True)]: every text node is stripped, and dropped
    when nothing is left of it. *)
Definition stripped_strings (n : node) : list string :=
  filter (λ s, s ≠ EmptyString) (map Text.strip (strings n)).

Definition get_text_strip (n : node) : string := Text.join (stripped_strings n).

(** The nodes below the children [cs], the first of which has index [i],
    given the nodes [below] each child. *)
Definition below_children (below : node → list (path * node))
  : nat → list node → list (path * node) :=
  fix go (i : nat) (cs : list node) : list (path * node) :=
    match cs with
    | [] => []
    | c :: cs' =>
        ([i], c) :: map (λ d, (i :: d.1, d.2)) (below c) ++ go (S i) cs'
    end.

(** The nodes strictly below [n] in document order, each with its path
    relative to [n]. *)
Fixpoint descendants (n : node) : list (path * node) :=
  match n with
  | NavigableString _ => []
  | Tag _ _ cs => below_children descendants 0%nat cs
  end.

Section Navigation.

(** The document the handles point into. *)
Variable soup : node.

Definition node_at (p : path) : node :=
  default (NavigableString EmptyString) (at_path soup p).

(** The elements below [p] that satisfy [test], in document order. *)
Definition find_all_by (test : node → bool) (p : path) : list path :=
  match at_path soup p with
  | Some n => map (λ d, p ++ d.1) (filter (λ d, test d.2 = true) (descendants n))
  | None => []
  end.

(** [tag.find_all(name)]. *)
Definition find_all (name : string) (p : path) : list path :=
  find_all_by (is_tag name) p.

(** [tag.find(name)] and [tag.find(function)]: the first match or [None]. *)
Definition find_by (test : node → bool) (p : path) : option path :=
  head (find_all_by test p).

Definition find (name : string) (p : path) : option path :=
  find_by (is_tag name) p.

(** The proper ancestors of [p], nearest first. *)
Fixpoint parents (p : path) : list path :=
  match p with
  | [] => []
  | i :: p' => map (cons i) (parents p') ++ [[]]
  end.

(** [tag.find_parent(name)]. *)
Definition find_parent (name : string) (p : path) : option path :=
  head (filter (λ q, is_tag name (node_at q) = true) (parents p)).

(** The later siblings of [p], nearest first. *)
Definition next_siblings (p : path) : list path :=
  match reverse p with
  | [] => []
  | i :: rq =>
      let q := reverse rq in
      match at_path soup q with
      | Some parent =>
          map (λ j, q ++ [j])
              (seq (S i) (length (contents_of parent) - S i)%nat)
      | None => []
      end
  end.

(** [tag.find_next_sibling(name)]. *)
Definition find_next_sibling (name : string) (p : path) : option path :=
  head (filter (λ q, is_tag name (node_at q) = true) (next_siblings p)).

End Navigation.

End Soup.

Import Builtins Soup.
Local Open Scope string_scope.
Local Open Scope list_scope.

(** ** Exceptions and results *)

(** A raised exception: whether it is an instance of [Exception] (what
    [except Exception] catches; [KeyboardInterrupt] and a cancellation are
    not) and its message [str(e)]. *)
Record exn := Exn { is_Exception : bool; str : string }.

Definition Exception (msg : string) : exn := Exn true msg.

(** The errors the interpreter raises by itself, with its messages. *)
Definition AttributeError_None (attr : string) : exn :=
  Exn true ("'NoneType' object has no attribute '" +:+ attr +:+ "'").
Definition ValueError_int (literal : string) (err : int_error) : exn :=
  Exn true
    match err with
    | InvalidLiteral =>
        "invalid literal for int() with base 10: "
        +:+ substring 0 200 (repr literal)
    | ExceedsLimit digits =>
        "Exceeds the limit (" +:+ pretty int_max_str_digits
        +:+ " digits) for integer string conversion: value has "
        +:+ pretty digits
        +:+ " digits; use sys.set_int_max_str_digits() to increase the limit"
    end.
Definition IndexError (msg : string) : exn := Exn true msg.
Definition KeyError (key : string) : exn := Exn true (repr key).
Definition TypeError (msg : string) : exn := Exn true msg.

Inductive result (A : Type) :=
| Ret (a : A)
| Raise (e : exn).
Arguments Ret {A} a.
Arguments Raise {A} e.

Definition is_ret {A} (r : result A) : bool :=
  match r with Ret _ => true | Raise _ => false end.

#[export] Instance result_ret : MRet result := λ A a, Ret a.
#[export] Instance result_bind : MBind result := λ A B f r,
  match r with
  | Ret a => f a
  | Raise e => Raise e
  end.

(** ** Values of the response dictionaries *)

Inductive sqlval :=
| SqlNull
| SqlInt (z : Z)
| SqlText (s : string)
| SqlBlob (b : string).

Inductive value :=
| VStr (s : string)
| VList (l : list string)
| VRow (r : gmap string sqlval).

(** ** The structured extractor (lines 229-277 of [scrape_and_extract_zones]) *)

Module Extractor.

Section WithSoup.

Variable soup : node.

(** [soup.find("table", id="basic")]. *)
Definition find_table : option path :=
  find_by soup (λ n, is_tag "table" n && bool_decide (get_attr n "id" = Some "basic")) [].

(** [table.find(lambda tag: tag.name == "td" and "Zone(s):" in tag.get_text())]. *)
Definition find_zone_cell (table : path) : option path :=
  find_by soup (λ n, is_tag "td" n && Text.contains "Zone(s):" (get_text n)) table.

(** [int(zone_cell.get('rowspan', 1))]. *)
Definition rowspan_of (cell : node) : result Z :=
  match get_attr cell "rowspan" with
  | None => Ret 1
  | Some s =>
      match int_of_str s with
      | inr z => Ret z
      | inl err => Raise (ValueError_int s err)
      end
  end.

(** The body of [for _ in range(rowspan - 1)], run [k] times on the loop
    variables [current_row] and [zones]. *)
Fixpoint walk_rows (k : nat) (current_row : option path) (zones : list string)
  : result (list string) :=
  match k with
  | O => Ret zones
  | S k' =>
      match current_row with
      | None => Raise (AttributeError_None "find_next_sibling")
      | Some row =>
          let current_row := find_next_sibling soup "tr" row in
          let zones :=
            match current_row with
            | Some row' =>
                match find soup "td" row' with
                | Some zone_value_cell =>
                    zones ++ [get_text_strip (node_at soup zone_value_cell)]
                | None => zones
                end
            | None => zones
            end in
          walk_rows k' current_row zones
      end
  end.

(** Lines 235-253: the zone list. *)
Definition extract_zones (table : path) : result (list string) :=
  match find_zone_cell table with
  | None => Ret []
  | Some zone_cell =>
      rowspan ← rowspan_of (node_at soup zone_cell);
      match find_parent soup "tr" zone_cell with
      | None => Raise (AttributeError_None "find_all")
      | Some current_row =>
          match last (find_all soup "td" current_row) with
          | None => Raise (IndexError "list index out of range")
          | Some zone_value_cell =>
              walk_rows (Z.to_nat (rowspan - 1)) (Some current_row)
                        [get_text_strip (node_at soup zone_value_cell)]
          end
      end
  end.

(** ["Zone(s):" in tag.get_text()] on the cell at [td]. *)
Definition zone_label_in (td : path) : bool :=
  Text.contains "Zone(s):" (get_text (node_at soup td)).

(** ["Flood Hazard Zone:" in td.get_text(strip=True)]. *)
Definition flood_label_in (td : path) : bool :=
  Text.contains "Flood Hazard Zone:" (get_text_strip (node_at soup td)).

(** Lines 258-262: the loop with [break] over [table.find_all("td")]. *)
Fixpoint scan_flood_cell (tds : list path) : option path :=
  match tds with
  | [] => None
  | td :: tds' =>
      if flood_label_in td then Some td else scan_flood_cell tds'
  end.

(** Lines 258-267: the flood hazard zone. *)
Definition extract_flood (table : path) : result string :=
  match scan_flood_cell (find_all soup "td" table) with
  | Some flood_hazard_cell =>
      match find_next_sibling soup "td" flood_hazard_cell with
      | Some cell => Ret (get_text_strip (node_at soup cell))
      | None => Raise (AttributeError_None "get_text")
      end
  | None => Ret "Not Found"
  end.

(** Lines 271-276: the dictionary [result]. *)
Definition zoning_record (apn href_cleaned : string) (zones : list string)
    (flood_hazard_zone : string) : gmap string value :=
  <["apn" := VStr apn]>
    (<["link" := VStr href_cleaned]>
       (<["zones" := VList zones]>
          (<["flood_hazard_zone" := VStr flood_hazard_zone]> ∅))).

(** Lines 229-277: from the parsed page to the result dictionary. *)
Definition extract_fields (apn href_cleaned : string) : result (gmap string value) :=
  match find_table with
  | None => Raise (Exception "Table with id 'basic' not found")
  | Some table =>
      zones ← extract_zones table;
      flood_hazard_zone ← extract_flood table;
      Ret (zoning_record apn href_cleaned zones flood_hazard_zone)
  end.

(** [rows] are the rows that [find_next_sibling("tr")] gives when called
    again and again, starting from [row]. *)
Fixpoint following_rows (row : path) (rows : list path) : Prop :=
  match rows with
  | [] => True
  | row' :: rows' =>
      find_next_sibling soup "tr" row = Some row' ∧ following_rows row' rows'
  end.

(** What a following row adds to the zones: the stripped text of its first
    [td], when it has one. *)
Definition first_cell_text (row : path) : option string :=
  match find soup "td" row with
  | Some cell => Some (get_text_strip (node_at soup cell))
  | None => None
  end.

End WithSoup.

End Extractor.

(** ** Calls that leave the process *)

(** The call sites of the program, in source order. *)
Inductive site :=
| SqlFetchone        (* parcel_local_search: connect, execute, fetchone, close *)
| ChromaQuery        (* collection.query *)
| Generate           (* client.chat.completions.create *)
| BrokerPost         (* requests.post *)
| PlaywrightStart    (* entering [async with async_playwright()] *)
| PlaywrightStop     (* leaving it *)
| Connect            (* p.chromium.connect_over_cdp *)
| NewContext         (* browser.new_context *)
| NewPage            (* context.new_page *)
| GotoPortal         (* page.goto("https://ladbs.org/atlas/") *)
| Title1             (* page.title(), line 168 *)
| Title2             (* page.title(), line 170 *)
| AckWait            (* acknowledgment.wait_for *)
| AckClick           (* acknowledgment.click *)
| Fill               (* search_box.fill *)
| Press              (* search_box.press *)
| Sleep              (* random_delay *)
| FlowAttached       (* wait_for(state="attached") *)
| FlowScroll         (* scroll_into_view_if_needed *)
| FlowVisible        (* wait_for(state="visible") *)
| LinkVisible        (* parcel_report_link.wait_for *)
| GetHref            (* parcel_report_link.get_attribute *)
| GotoReport         (* page.goto(href_cleaned) *)
| Title3             (* page.title(), line 219 *)
| LoadState          (* page.wait_for_load_state *)
| Content            (* page.content *)
| Screenshot         (* page.screenshot *)
| Close.             (* browser.close *)

#[export] Instance site_eq_dec : EqDecision site.
Proof. solve_decision. Defined.

(** A call made at a site, and whether it returned. *)
Record event := Event { ev_site : site; ev_ok : bool }.

#[export] Instance event_eq_dec : EqDecision event.
Proof. solve_decision. Defined.

(** A computation returns or raises, and logs the calls it made, oldest
    first. *)
Definition M (A : Type) : Type := (result A * list event)%type.

Definition outcome {A} (m : M A) : result A := m.1.
Definition trace {A} (m : M A) : list event := m.2.

#[export] Instance M_ret : MRet M := λ A a, (Ret a, []).
#[export] Instance M_bind : MBind M := λ A B f m,
  match m with
  | (Ret a, t) => let k := f a in (k.1, t ++ k.2)
  | (Raise e, t) => (Raise e, t)
  end.

(** A call at [s] whose outcome is [o]. *)
Definition call {A} (s : site) (o : result A) : M A :=
  (o, [Event s (is_ret o)]).

(** A step that makes no call. *)
Definition pure {A} (r : result A) : M A := (r, []).

(** [try: body  except Exception as e: handler(e)]. *)
Definition try_except {A} (body : M A) (handler : exn → M A) : M A :=
  match body with
  | (Raise e, t) =>
      if is_Exception e
      then let h := handler e in (h.1, t ++ h.2)
      else body
  | (Ret _, _) => body
  end.

(** [try: body  finally: cleanup]: [cleanup] runs however [body] ends, and
    what it raises replaces the outcome of [body]. *)
Definition try_finally {A} (body : M A) (cleanup : M unit) : M A :=
  (match cleanup.1 with
   | Ret _ => body.1
   | Raise e => Raise e
   end, body.2 ++ cleanup.2).

(** ** The session broker's answer *)

(** A decoded JSON body; numbers are the integers. *)

#[local] Unset Elimination Schemes.
Inductive json :=
| JNull
| JBool (b : bool)
| JInt (z : Z)
| JStr (s : string)
| JList (l : list json)
| JDict (d : gmap string json).
#[local] Set Elimination Schemes.

(** Truth value of a decoded JSON value in an [if]. *)
Definition truthy (v : json) : bool :=
  match v with
  | JNull => false
  | JBool b => b
  | JInt z => negb (Z.eqb z 0)
  | JStr s => negb (String.eqb s "")
  | JList l => match l with [] => false | _ => true end
  | JDict d => bool_decide (d ≠ ∅)
  end.

(** [v[key]] for a string [key]. *)
Definition subscript (v : json) (key : string) : result json :=
  match v with
  | JDict d =>
      match d !! key with
      | Some x => Ret x
      | None => Raise (KeyError key)
      end
  | JList _ => Raise (TypeError "list indices must be integers or slices, not str")
  | JStr _ => Raise (TypeError "string indices must be integers, not 'str'")
  | JInt _ => Raise (TypeError "'int' object is not subscriptable")
  | JBool _ => Raise (TypeError "'bool' object is not subscriptable")
  | JNull => Raise (TypeError "'NoneType' object is not subscriptable")
  end.

(** What [requests.post] returns: the status code and what
    [response.json()] gives on the body. *)
Record response := Response { status_code : Z; json_body : result json }.

(** ** The world *)

(** The outcome of every call site in one request, the user agents the
    deployment lists in [get_random_user_agent] and the draw of
    [random.choice]. [effect_outcome] serves the calls awaited for their
    effect, [title_outcome] the three calls of [page.title];
    [query_outcome] is the ["documents"] entry of the vector store's answer,
    [None] when the answer is empty or has no such entry; [frame_found]
    tells whether [page.frame] finds the widget; [content_outcome] is the
    tree BeautifulSoup builds from [page.content()]. *)
Record world := World {
  effect_outcome : site → result unit;
  title_outcome : site → result string;
  fetchone_outcome : result (option (list sqlval));
  query_outcome : result (option (list (list string)));
  generate_outcome : result string;
  post_outcome : result response;
  frame_found : bool;
  href_outcome : result (option string);
  content_outcome : result node;
  user_agents : list string;
  draw : nat
}.

(** ** The program *)

Module Idx.

Section Program.

Variable w : world.

Definition newline : string := String (ascii_of_nat 10) EmptyString.

Definition columns : list string :=
  ["AIN"; "SitusFullA"; "TaxRateAre"; "SQFTmain1"; "LegalDescr"; "FLD_ZONE";
   "ZONE_SUBTY"; "NAME"; "PLNG_AREA"; "TITLE_22";
   "Zone_Type_1"; "Zone_Type_2"; "Zone_Type_3"; "Zone_Type_4"; "Zone_Type_5";
   "Seismic_Quadrangle"].

(** [dict(zip(columns, result))]: a later pair replaces an earlier one. *)
Definition dict_of_row (result : list sqlval) : gmap string sqlval :=
  foldl (λ d kv, <[kv.1 := kv.2]> d) ∅ (zip columns result).

(** [parcel_local_search]: the row, a miss or an error come from SQLite;
    [dict(zip(columns, result)) if result else None]. *)
Definition parcel_local_search (apn : string) : M (option (gmap string sqlval)) :=
  result ← call SqlFetchone (fetchone_outcome w);
  mret (match result with
        | Some (v :: row) => Some (dict_of_row (v :: row))
        | Some [] | None => None
        end).

(** [retrieve_context]: the query text only reaches the vector store,
    whose answer is [query_outcome]: the ["documents"] entry of a
    non-empty result that has one. *)
Definition retrieve_context : M string :=
  try_except
    (results ← call ChromaQuery (query_outcome w);
     mret (match results with
           | Some (documents0 :: _) => String.concat newline documents0
           | Some [] | None => "No relevant documents found."
           end))
    (λ e, mret "Error retrieving context.").

(** [call_gemini_flash]: the prompts only reach the generation service. *)
Definition call_gemini_flash : M string :=
  call Generate (generate_outcome w).

(** [get_random_user_agent]: [random.choice(user_agents)]. *)
Definition get_random_user_agent : result string :=
  match user_agents w with
  | [] => Raise (IndexError "Cannot choose from an empty sequence")
  | ua :: uas => Ret (nth (draw w mod length (ua :: uas)) (ua :: uas) ua)
  end.

(** [create_browserbase_session]; [JNull] is Python's [None]. *)
Definition create_browserbase_session : M json :=
  response ← call BrokerPost (post_outcome w);
  if bool_decide (status_code response ∈ [200; 201])
  then pure (json_body response)
  else mret JNull.

Definition error_dict (msg : string) : gmap string value :=
  <["error" := VStr msg]> ∅.

(** The [try] block of [scrape_and_extract_zones], lines 165-277. *)
Definition navigate_and_extract (apn : string) : M (gmap string value) :=
  call GotoPortal (effect_outcome w GotoPortal);;
  call Title1 (title_outcome w Title1);;
  title ← call Title2 (title_outcome w Title2);
  if Text.contains "Service unavailable" title
  then mret (error_dict "Service unavailable")
  else
    pure (if frame_found w then Ret () else Raise (Exception "Iframe not found."));;
    try_except
      (call AckWait (effect_outcome w AckWait);;
       call AckClick (effect_outcome w AckClick))
      (λ e, mret ());;
    call Fill (effect_outcome w Fill);;
    call Press (effect_outcome w Press);;
    call Sleep (effect_outcome w Sleep);;
    call FlowAttached (effect_outcome w FlowAttached);;
    call FlowScroll (effect_outcome w FlowScroll);;
    call FlowVisible (effect_outcome w FlowVisible);;
    call LinkVisible (effect_outcome w LinkVisible);;
    href ← call GetHref (href_outcome w);
    href_cleaned ← pure (match href with
                         | Some h => Ret (Text.remove_char " " h)
                         | None => Raise (AttributeError_None "replace")
                         end);
    call GotoReport (effect_outcome w GotoReport);;
    call Title3 (title_outcome w Title3);;
    call LoadState (effect_outcome w LoadState);;
    soup ← call Content (content_outcome w);
    pure (Extractor.extract_fields soup apn href_cleaned).

(** The [except Exception as e] block, lines 279-283. *)
Definition on_error (e : exn) : M (gmap string value) :=
  call Screenshot (effect_outcome w Screenshot);;
  mret (error_dict (str e)).

(** The [try ... except Exception] statement without its [finally]. *)
Definition guarded_route (apn : string) : M (gmap string value) :=
  try_except (navigate_and_extract apn) on_error.

(** [scrape_and_extract_zones]. *)
Definition scrape_and_extract_zones (apn : string) (connect_url : json)
  : M (gmap string value) :=
  call PlaywrightStart (effect_outcome w PlaywrightStart);;
  try_finally
    (call Connect (effect_outcome w Connect);;
     user_agent ← pure get_random_user_agent;
     call NewContext (effect_outcome w NewContext);;
     call NewPage (effect_outcome w NewPage);;
     try_finally
       (guarded_route apn)
       (call Close (effect_outcome w Close)))
    (call PlaywrightStop (effect_outcome w PlaywrightStop)).

(** [get_web_scraped_data]. *)
Definition get_web_scraped_data (apn : string) : M (gmap string value) :=
  session ← create_browserbase_session;
  if negb (truthy session)
  then mret (error_dict "Failed to create Browserbase session")
  else
    connect_url ← pure (subscript session "connectUrl");
    scrape_and_extract_zones apn connect_url.

(** The dictionary [parcel_data] when [if parcel_data:] holds. *)
Definition if_truthy (parcel_data : option (gmap string sqlval))
  : option (gmap string sqlval) :=
  match parcel_data with
  | Some d => if bool_decide (d ≠ ∅) then Some d else None
  | None => None
  end.

(** The endpoint [get_parcel_details_and_explanation]. *)
Definition get_parcel_details_and_explanation (apn : string)
  : M (gmap string value) :=
  parcel_data ← parcel_local_search apn;
  match if_truthy parcel_data with
  | Some parcel_data =>
      context ← retrieve_context;
      explanation ← call_gemini_flash;
      mret (<["parcel_data" := VRow parcel_data]>
            (<["context" := VStr context]>
             (<["explanation" := VStr explanation]>
              (<["source" := VStr "database"]> ∅))))
  | None =>
      web_data ← get_web_scraped_data apn;
      mret (<["source" := VStr "webscraper"]> web_data)
  end.

End Program.

End Idx.

(** ** What a run shows *)

Module Observe.

(** The number of calls made at site [s]. *)
Definition calls_to (s : site) (t : list event) : nat :=
  length (filter (λ ev, ev_site ev = s) t).

(** Every call of [m] is made at a site in [P]. *)
Definition emits {A} (P : site → bool) (m : M A) : Prop :=
  Forall (λ ev, P (ev_site ev) = true) (trace m).

(** The sites of the first tier: the local store, the vector store and the
    generation service. Every other site belongs to the fallback. *)
Definition tier1_site (s : site) : bool :=
  match s with
  | SqlFetchone | ChromaQuery | Generate => true
  | _ => false
  end.

(** The fallback was attempted: a call was made at one of its sites. *)
Definition fallback_attempted (t : list event) : Prop :=
  Exists (λ ev, tier1_site (ev_site ev) = false) t.

(** The sites the [try] block of [scrape_and_extract_zones] calls. *)
Definition route_site (s : site) : bool :=
  bool_decide
    (s ∈ [GotoPortal; Title1; Title2; AckWait; AckClick; Fill; Press; Sleep;
          FlowAttached; FlowScroll; FlowVisible; LinkVisible; GetHref;
          GotoReport; Title3; LoadState; Content]).

(** The broker granted a session whose connect URL is [url]. *)
Record session_granted (w : world) (url : json) : Prop := {
  granted_response : ∃ resp session,
    post_outcome w = Ret resp
    ∧ (status_code resp = 200 ∨ status_code resp = 201)
    ∧ json_body resp = Ret session
    ∧ truthy session = true
    ∧ subscript session "connectUrl" = Ret url
}.

(** The lines before the [try] block succeed: the driver starts, the
    browser is attached, a user agent is drawn and a context and a page are
    opened. *)
Record page_opened (w : world) : Prop := {
  opened_start : effect_outcome w PlaywrightStart = Ret ();
  opened_connect : effect_outcome w Connect = Ret ();
  opened_agent : user_agents w ≠ [];
  opened_context : effect_outcome w NewContext = Ret ();
  opened_page : effect_outcome w NewPage = Ret ()
}.

(** The route reaches the report: every call up to [page.content()]
    returns, the portal is in service, the widget is found, a failure of the
    acknowledgment is an [Exception], the link has the href [href] and the
    page parses to [soup]. *)
Record report_loaded (w : world) (href : string) (soup : node) : Prop := {
  loaded_effects :
    Forall (λ s, effect_outcome w s = Ret ())
      [GotoPortal; Fill; Press; Sleep; FlowAttached; FlowScroll; FlowVisible;
       LinkVisible; GotoReport; LoadState];
  loaded_title1 : is_ret (title_outcome w Title1) = true;
  loaded_title2 : ∃ title, title_outcome w Title2 = Ret title
                           ∧ Text.contains "Service unavailable" title = false;
  loaded_frame : frame_found w = true;
  loaded_ack_wait : ∀ e, effect_outcome w AckWait = Raise e → is_Exception e = true;
  loaded_ack_click : ∀ e, effect_outcome w AckClick = Raise e → is_Exception e = true;
  loaded_href : href_outcome w = Ret (Some href);
  loaded_title3 : is_ret (title_outcome w Title3) = true;
  loaded_content : content_outcome w = Ret soup
}.

(** The context the first tier hands to the generation step, for each
    answer of the vector store: the documents of the first result list
    joined by newlines, or one of two fixed texts. *)
Definition context_text (w : world) : string :=
  match query_outcome w with
  | Ret (Some (documents0 :: _)) => String.concat Idx.newline documents0
  | Ret (Some []) | Ret None => "No relevant documents found."
  | Raise _ => "Error retrieving context."
  end.

(** The calls of one request in the order of the source: the first tier,
    the broker, the set-up of the browser, the route, the screenshot, the
    close and the stop of the driver. *)
Definition source_order : list site :=
  [SqlFetchone; ChromaQuery; Generate; BrokerPost; PlaywrightStart; Connect;
   NewContext; NewPage; GotoPortal; Title1; Title2; AckWait; AckClick; Fill;
   Press; Sleep; FlowAttached; FlowScroll; FlowVisible; LinkVisible; GetHref;
   GotoReport; Title3; LoadState; Content; Screenshot; Close; PlaywrightStop].

(** The sites [m] calls, in the order of the calls, are taken from [order]
    without going back and without repeating one. *)
Definition in_order {A} (order : list site) (m : M A) : Prop :=
  sublist (ev_site <$> trace m) order.

(** The sites of the [try] block, lines 165-277, in the order of the text. *)
Definition route_order : list site :=
  [GotoPortal; Title1; Title2; AckWait; AckClick; Fill; Press; Sleep;
   FlowAttached; FlowScroll; FlowVisible; LinkVisible; GetHref;
   GotoReport; Title3; LoadState; Content].

(** The sites of the body of the [async with] block, lines 157-286. *)
Definition page_order : list site :=
  [Connect; NewContext; NewPage] ++ route_order ++ [Screenshot; Close].

End Observe.

(** ** Concrete documents and worlds *)

Module Sample.

Definition text (s : string) : node := NavigableString s.
Definition td (s : string) : node := Tag "td" ∅ [text s].
Definition tr (cells : list node) : node := Tag "tr" ∅ cells.
Definition document (rows : list node) : node :=
  Tag "[document]" ∅ [Tag "html" ∅ [Tag "body" ∅ [Tag "table" {["id" := "basic"]} rows]]].

(** A world in which every call returns and the report page is [soup]. *)
Definition calm (soup : node) : world :=
  {| effect_outcome := λ _, Ret ();
     title_outcome := λ _, Ret "LADBS Atlas";
     fetchone_outcome := Ret None;
     query_outcome := Ret None;
     generate_outcome := Ret "explanation";
     post_outcome := Ret (Response 201 (Ret (JDict {["connectUrl" := JStr "wss://connect"]})));
     frame_found := true;
     href_outcome := Ret (Some "https://x.com/Parcel Profile Detail2");
     content_outcome := Ret soup;
     user_agents := ["Mozilla/5.0"];
     draw := 0 |}.

(** [w] with the call at [s] raising [e]. *)
Definition failing_at (s : site) (e : exn) (w : world) : world :=
  {| effect_outcome := λ s', if decide (s' = s) then Raise e else effect_outcome w s';
     title_outcome := λ s', if decide (s' = s) then Raise e else title_outcome w s';
     fetchone_outcome := if decide (s = SqlFetchone) then Raise e else fetchone_outcome w;
     query_outcome := if decide (s = ChromaQuery) then Raise e else query_outcome w;
     generate_outcome := if decide (s = Generate) then Raise e else generate_outcome w;
     post_outcome := if decide (s = BrokerPost) then Raise e else post_outcome w;
     frame_found := frame_found w;
     href_outcome := if decide (s = GetHref) then Raise e else href_outcome w;
     content_outcome := if decide (s = Content) then Raise e else content_outcome w;
     user_agents := user_agents w;
     draw := draw w |}.

(** [w] with the list of [get_random_user_agent] set to [agents]. *)
Definition with_user_agents (agents : list string) (w : world) : world :=
  {| effect_outcome := effect_outcome w;
     title_outcome := title_outcome w;
     fetchone_outcome := fetchone_outcome w;
     query_outcome := query_outcome w;
     generate_outcome := generate_outcome w;
     post_outcome := post_outcome w;
     frame_found := frame_found w;
     href_outcome := href_outcome w;
     content_outcome := content_outcome w;
     user_agents := agents;
     draw := draw w |}.

(** [w] with the broker answering [resp]. *)
Definition with_response (resp : response) (w : world) : world :=
  {| effect_outcome := effect_outcome w;
     title_outcome := title_outcome w;
     fetchone_outcome := fetchone_outcome w;
     query_outcome := query_outcome w;
     generate_outcome := generate_outcome w;
     post_outcome := Ret resp;
     frame_found := frame_found w;
     href_outcome := href_outcome w;
     content_outcome := content_outcome w;
     user_agents := user_agents w;
     draw := draw w |}.

(** [w] with the local store answering [row]. *)
Definition with_row (row : option (list sqlval)) (w : world) : world :=
  {| effect_outcome := effect_outcome w;
     title_outcome := title_outcome w;
     fetchone_outcome := Ret row;
     query_outcome := query_outcome w;
     generate_outcome := generate_outcome w;
     post_outcome := post_outcome w;
     frame_found := frame_found w;
     href_outcome := href_outcome w;
     content_outcome := content_outcome w;
     user_agents := user_agents w;
     draw := draw w |}.

(** [w] without the widget's iframe. *)
Definition without_frame (w : world) : world :=
  {| effect_outcome := effect_outcome w;
     title_outcome := title_outcome w;
     fetchone_outcome := fetchone_outcome w;
     query_outcome := query_outcome w;
     generate_outcome := generate_outcome w;
     post_outcome := post_outcome w;
     frame_found := false;
     href_outcome := href_outcome w;
     content_outcome := content_outcome w;
     user_agents := user_agents w;
     draw := draw w |}.

(** [w] with the portal's title set to [title]. *)
Definition with_title (title : string) (w : world) : world :=
  {| effect_outcome := effect_outcome w;
     title_outcome := λ _, Ret title;
     fetchone_outcome := fetchone_outcome w;
     query_outcome := query_outcome w;
     generate_outcome := generate_outcome w;
     post_outcome := post_outcome w;
     frame_found := frame_found w;
     href_outcome := href_outcome w;
     content_outcome := content_outcome w;
     user_agents := user_agents w;
     draw := draw w |}.

Definition blank : node := text " ".

Definition zone_label (rowspan : string) : node :=
  Tag "td" {["rowspan" := rowspan]} [text "Zone(s):"].

(** The table of the report: the rows of [rows] directly below a table with
    id ["basic"]; the table is at [table_path]. *)
Definition table_path : path := [0; 0; 0]%nat.

(** A label cell spanning three rows, one value per row. *)
Definition three_zone_page : node :=
  document [blank;
            tr [zone_label "3"; td "A1-1"]; blank;
            tr [td "A2-4"]; blank;
            tr [td "RD1.5"]; blank].

(** A label cell without [rowspan] and its value. *)
Definition one_zone_page : node :=
  document [tr [td "Zone(s):"; td "C2"]].

Definition r1_page : node :=
  document [tr [td "Zone(s):"; td "R1"]].

(** A label cell that announces three rows in a table that has one. *)
Definition truncated_page : node :=
  document [tr [zone_label "3"; td "R1"]].

(** A label cell that announces two rows in a table that has one. *)
Definition short_page : node :=
  document [tr [zone_label "2"; td "R1"]].

(** The label cell is the only cell of its row. *)
Definition label_only_page : node :=
  document [tr [td "Zone(s):"]; tr [td "R1"]].

(** A flood hazard label with no cell after it. *)
Definition flood_label_only_page : node :=
  document [tr [td "Zone(s):"; td "R1"]; tr [td "Flood Hazard Zone:"]].

(** A flood hazard label followed by its value. *)
Definition flood_page : node :=
  document [tr [td "Zone(s):"; td "R1"]; tr [td "Flood Hazard Zone:"; td " X "]].

(** A table with neither label. *)
Definition bare_page : node :=
  document [tr [td "Address:"; td "1 Main St"]].


(** A label cell with [rowspan="0"] and rows after it. *)
Definition zero_rowspan_page : node :=
  document [tr [zone_label "0"; td "R1"]; tr [td "R2"]].

(** A page without the table. *)
Definition no_table_page : node :=
  Tag "[document]" ∅ [Tag "html" ∅ [Tag "body" ∅ [Tag "p" ∅ [text "No data"]]]].

(** [w] with the call at the effect site [s] ending as [o]. *)
Definition with_effect (s : site) (o : result unit) (w : world) : world :=
  {| effect_outcome := λ s', if decide (s' = s) then o else effect_outcome w s';
     title_outcome := title_outcome w;
     fetchone_outcome := fetchone_outcome w;
     query_outcome := query_outcome w;
     generate_outcome := generate_outcome w;
     post_outcome := post_outcome w;
     frame_found := frame_found w;
     href_outcome := href_outcome w;
     content_outcome := content_outcome w;
     user_agents := user_agents w;
     draw := draw w |}.

(** [w] with the report link lacking its href. *)
Definition without_href (w : world) : world :=
  {| effect_outcome := effect_outcome w;
     title_outcome := title_outcome w;
     fetchone_outcome := fetchone_outcome w;
     query_outcome := query_outcome w;
     generate_outcome := generate_outcome w;
     post_outcome := post_outcome w;
     frame_found := frame_found w;
     href_outcome := Ret None;
     content_outcome := content_outcome w;
     user_agents := user_agents w;
     draw := draw w |}.

(** The string of [n] characters [c]. *)
Definition repeated (n : nat) (c : ascii) : string :=
  string_of_list_ascii (replicate n c).

End Sample.


(** * Properties *)

(** ** Text *)

Module TextFacts.

Import Text.

Lemma append_String (c : ascii) (s t : string) :
  String c s +:+ t = String c (s +:+ t).
Proof. reflexivity. Qed.

Lemma append_nil (t : string) : EmptyString +:+ t = t.
Proof. reflexivity. Qed.

Ltac norm_append := rewrite ?append_String, ?append_nil in *.

Lemma append_empty_r (s : string) : s +:+ EmptyString = s.
Proof. induction s as [|c s IH]; norm_append; [done | by rewrite IH]. Qed.

Lemma join_cons (x : string) (xs : list string) : join (x :: xs) = x +:+ join xs.
Proof.
  unfold join. destruct xs as [|y ys].
  - symmetry. apply append_empty_r.
  - reflexivity.
Qed.

Lemma join_filter_nonempty (l : list string) :
  join (filter (λ s, s ≠ EmptyString) l) = join l.
Proof.
  induction l as [|x xs IH]; [done |].
  rewrite filter_cons. destruct (decide (x ≠ EmptyString)) as [Hx | Hx].
  - by rewrite !join_cons, IH.
  - apply dec_stable in Hx. subst x. by rewrite join_cons, IH.
Qed.

Lemma prefix_spec (w s : string) :
  String.prefix w s = true ↔ ∃ b, s = w +:+ b.
Proof.
  revert s. induction w as [|c w IH]; intros s; simpl; norm_append.
  - destruct s; split; eauto.
  - destruct s as [|d s]; simpl.
    + split; [done | intros [b Hb]; norm_append; discriminate].
    + destruct (ascii_dec c d) as [-> | Hne].
      * rewrite IH. split; intros [b Hb]; exists b; norm_append; congruence.
      * split; [done | intros [b Hb]; norm_append; congruence].
Qed.

Lemma contains_empty (w : string) :
  contains w EmptyString = String.prefix w EmptyString.
Proof. simpl. apply orb_false_r. Qed.

Lemma contains_String (w : string) (c : ascii) (s : string) :
  contains w (String c s) = String.prefix w (String c s) || contains w s.
Proof. reflexivity. Qed.

Lemma contains_spec (w s : string) :
  contains w s = true ↔ ∃ a b, s = a +:+ w +:+ b.
Proof.
  induction s as [|c s IH].
  - rewrite contains_empty, prefix_spec. split.
    + intros [b Hb]. by exists EmptyString, b.
    + intros (a & b & Hab). destruct a; norm_append; [by exists b | discriminate].
  - rewrite contains_String, orb_true_iff, IH, prefix_spec. split.
    + intros [[b Hb] | (a & b & Hab)].
      * by exists EmptyString, b.
      * exists (String c a), b. norm_append. by rewrite Hab.
    + intros (a & b & Hab). destruct a as [|x a]; norm_append.
      * left. by exists b.
      * right. exists a, b. congruence.
Qed.

Lemma squeezed_rstrip (s : string) : squeezed s (rstrip s).
Proof.
  induction s as [|c s IH]; simpl; [constructor |].
  destruct (rstrip s) as [|d r] eqn:Hr.
  - destruct (isspace c) eqn:Hc.
    + by apply squeezed_drop.
    + by apply squeezed_keep.
  - by apply squeezed_keep.
Qed.

Lemma squeezed_strip (s : string) : squeezed s (strip s).
Proof.
  unfold strip. induction s as [|c s IH]; simpl; [constructor |].
  destruct (isspace c) eqn:Hc.
  - by apply squeezed_drop.
  - apply squeezed_rstrip.
Qed.

Lemma squeezed_app (s1 t1 s2 t2 : string) :
  squeezed s1 t1 → squeezed s2 t2 → squeezed (s1 +:+ s2) (t1 +:+ t2).
Proof. induction 1; intros H2; norm_append; [done | | ]; constructor; auto. Qed.

Lemma squeezed_join (l : list string) : squeezed (join l) (join (map strip l)).
Proof.
  induction l as [|x xs IH]; [constructor |].
  rewrite map_cons, !join_cons. apply squeezed_app; [apply squeezed_strip | done].
Qed.

Lemma squeezed_split (a s t : string) :
  squeezed (a +:+ s) t → ∃ ta ts, t = ta +:+ ts ∧ squeezed a ta ∧ squeezed s ts.
Proof.
  revert t. induction a as [|c a IH]; intros t H; norm_append.
  - exists EmptyString, t. split_and!; [done | constructor | done].
  - inversion H as [| c' s' t' H' | c' s' t' Hc H']; subst.
    + destruct (IH _ H') as (ta & ts & -> & Ha & Hs).
      exists (String c ta), ts. split_and!; [done | by constructor | done].
    + destruct (IH _ H') as (ta & ts & -> & Ha & Hs).
      exists ta, ts. split_and!; [done | by constructor | done].
Qed.

Lemma squeezed_no_space (w t : string) :
  no_space w = true → squeezed w t → t = w.
Proof.
  intros Hw H. induction H as [| c s t H IH | c s t Hc H IH]; simpl in Hw.
  - done.
  - apply andb_true_iff in Hw as [_ Hw]. by rewrite IH.
  - rewrite Hc in Hw. discriminate.
Qed.

(** A word without blanks that occurs in [s] still occurs once blanks of [s]
    are left out. *)
Lemma contains_squeezed (w s t : string) :
  no_space w = true → squeezed s t → contains w s = true → contains w t = true.
Proof.
  intros Hw Hst. rewrite !contains_spec. intros (a & b & ->).
  apply squeezed_split in Hst as (ta & t' & -> & _ & Hst).
  apply squeezed_split in Hst as (tw & tb & -> & Hsw & _).
  apply squeezed_no_space in Hsw as ->; [| done]. by exists ta, tb.
Qed.

End TextFacts.

(** ** Documents *)

Module SoupFacts.

Lemma at_path_app (soup : node) (p d : path) (n : node) :
  at_path soup p = Some n → at_path soup (p ++ d) = at_path n d.
Proof.
  revert soup. induction p as [|i p IH]; intros soup H; simpl in *.
  - by injection H as ->.
  - destruct (contents_of soup !! i) as [c|]; [by apply IH | done].
Qed.

Lemma below_children_at (name : string) (attrs : gmap string string)
    (cs0 cs : list node) (i : nat) (d : path * node) :
  Forall (λ c, ∀ d, d ∈ descendants c → at_path c d.1 = Some d.2) cs →
  drop i cs0 = cs →
  d ∈ below_children descendants i cs →
  at_path (Tag name attrs cs0) d.1 = Some d.2.
Proof.
  intros Hall. revert i. induction Hall as [|c cs Hc Hcs IH]; intros i Hdrop Hd.
  - by apply elem_of_nil in Hd.
  - assert (cs0 !! i = Some c) as Hi.
    { rewrite <- (Nat.add_0_r i), <- lookup_drop, Hdrop. done. }
    simpl in Hd. apply elem_of_cons in Hd as [-> | Hd].
    { simpl. by rewrite Hi. }
    apply elem_of_app in Hd as [Hd | Hd].
    + apply list_elem_of_fmap in Hd as (d' & -> & Hd'). simpl. rewrite Hi.
      by apply Hc.
    + apply (IH (S i)); [| done].
      rewrite (drop_S _ _ _ Hi) in Hdrop. congruence.
Qed.

Lemma descendants_at (n : node) (d : path * node) :
  d ∈ descendants n → at_path n d.1 = Some d.2.
Proof.
  revert d. induction n as [s | name attrs cs IH] using node_ind; intros d Hd.
  - by apply elem_of_nil in Hd.
  - apply (below_children_at name attrs cs cs 0%nat d IH); [done | exact Hd].
Qed.

Section Navigation.

Variable soup : node.

Lemma find_all_by_elem (test : node → bool) (p q : path) :
  q ∈ find_all_by soup test p ↔
  ∃ n d, at_path soup p = Some n ∧ d ∈ descendants n ∧ test d.2 = true ∧ q = p ++ d.1.
Proof.
  unfold find_all_by. destruct (at_path soup p) as [n|] eqn:Hp.
  - rewrite list_elem_of_fmap. split.
    + intros (d & -> & Hd). apply list_elem_of_filter in Hd as [Ht Hd]. by exists n, d.
    + intros (n' & d & [= <-] & Hd & Ht & ->). exists d. split; [done |].
      by apply list_elem_of_filter.
  - split; [intros H; by apply elem_of_nil in H | intros (n & d & [=] & _)].
Qed.

Lemma node_at_descendant (p : path) (n : node) (d : path * node) :
  d ∈ descendants n → at_path soup p = Some n → node_at soup (p ++ d.1) = d.2.
Proof.
  intros Hd Hp. unfold node_at.
  pose proof (at_path_app soup p d.1 n Hp) as ->.
  by pose proof (descendants_at n d Hd) as ->.
Qed.

Lemma find_all_by_test (test : node → bool) (p q : path) :
  q ∈ find_all_by soup test p → test (node_at soup q) = true.
Proof.
  rewrite find_all_by_elem. intros (n & d & Hp & Hd & Ht & ->).
  by rewrite (node_at_descendant p n d).
Qed.

Lemma find_by_test (test : node → bool) (p q : path) :
  find_by soup test p = Some q → test (node_at soup q) = true.
Proof.
  unfold find_by. intros H. apply (find_all_by_test test p).
  destruct (find_all_by soup test p); [done |]. injection H as ->. apply list_elem_of_here.
Qed.

(** Searching with a conjunction is filtering the hits of its first half. *)
Lemma find_all_by_and (f g : node → bool) (p : path) :
  find_all_by soup (λ n, f n && g n) p
  = filter (λ q, g (node_at soup q) = true) (find_all_by soup f p).
Proof.
  unfold find_all_by. destruct (at_path soup p) as [n|] eqn:Hp; [| done].
  assert (∀ d, d ∈ descendants n → node_at soup (p ++ d.1) = d.2) as Hat.
  { intros d Hd. by apply (node_at_descendant p n). }
  induction (descendants n) as [|d ds IH]; [done |].
  assert (node_at soup (p ++ d.1) = d.2) as Hd by apply Hat, list_elem_of_here.
  assert (∀ d', d' ∈ ds → node_at soup (p ++ d'.1) = d'.2) as Hds.
  { intros d' Hd'. apply Hat. by apply list_elem_of_further. }
  specialize (IH Hds).
  rewrite !filter_cons. destruct (f d.2) eqn:Hf; simpl.
  - rewrite filter_cons, Hd. destruct (g d.2) eqn:Hg; simpl; by rewrite IH.
  - apply IH.
Qed.

End Navigation.

Lemma get_text_strip_contains (w : string) (n : node) :
  Text.no_space w = true →
  Text.contains w (get_text n) = true → Text.contains w (get_text_strip n) = true.
Proof.
  intros Hw. unfold get_text, get_text_strip, stripped_strings.
  rewrite TextFacts.join_filter_nonempty.
  apply TextFacts.contains_squeezed; [done | apply TextFacts.squeezed_join].
Qed.

End SoupFacts.

(** ** Computations *)

Module EffectFacts.

Import Observe.

Section Laws.

Context {A B : Type}.

Lemma bind_ret (a : A) (t : list event) (f : A → M B) :
  ((Ret a, t) : M A) ≫= f = ((f a).1, t ++ (f a).2).
Proof. reflexivity. Qed.

Lemma bind_raise (e : exn) (t : list event) (f : A → M B) :
  ((Raise e, t) : M A) ≫= f = (Raise e, t).
Proof. reflexivity. Qed.

Lemma outcome_bind (m : M A) (f : A → M B) :
  outcome (m ≫= f)
  = match outcome m with Ret a => outcome (f a) | Raise e => Raise e end.
Proof. by destruct m as [[a | e] t]. Qed.

Lemma trace_bind (m : M A) (f : A → M B) :
  trace (m ≫= f)
  = trace m ++ match outcome m with Ret a => trace (f a) | Raise _ => [] end.
Proof. destruct m as [[a | e] t]; simpl; [done | by rewrite app_nil_r]. Qed.

Lemma emits_bind (P : site → bool) (m : M A) (f : A → M B) :
  emits P m → (∀ a, emits P (f a)) → emits P (m ≫= f).
Proof.
  unfold emits. intros Hm Hf. rewrite trace_bind. apply Forall_app. split; [done |].
  destruct (outcome m); [apply Hf | constructor].
Qed.

End Laws.

Section Laws1.

Context {A : Type}.

Lemma trace_pair (r : result A) (t : list event) : trace ((r, t) : M A) = t.
Proof. reflexivity. Qed.

Lemma outcome_pair (r : result A) (t : list event) : outcome ((r, t) : M A) = r.
Proof. reflexivity. Qed.

Lemma emits_ret (P : site → bool) (a : A) : emits P (mret a : M A).
Proof. constructor. Qed.

Lemma emits_pure (P : site → bool) (r : result A) : emits P (pure r).
Proof. constructor. Qed.

Lemma emits_call (P : site → bool) (s : site) (o : result A) :
  P s = true → emits P (call s o).
Proof. intros H. by repeat constructor. Qed.

Lemma trace_try_except (body : M A) (handler : exn → M A) :
  trace (try_except body handler)
  = trace body ++ match outcome body with
                  | Raise e => if is_Exception e then trace (handler e) else []
                  | Ret _ => []
                  end.
Proof.
  destruct body as [[a | e] t]; simpl; [by rewrite app_nil_r |].
  destruct (is_Exception e); simpl; [done | by rewrite app_nil_r].
Qed.

Lemma emits_try_except (P : site → bool) (body : M A) (handler : exn → M A) :
  emits P body → (∀ e, emits P (handler e)) → emits P (try_except body handler).
Proof.
  unfold emits. intros Hb Hh. rewrite trace_try_except. apply Forall_app.
  split; [done |]. destruct (outcome body) as [a | e]; [constructor |].
  destruct (is_Exception e); [apply Hh | constructor].
Qed.

Lemma emits_try_finally (P : site → bool) (body : M A) (cleanup : M unit) :
  emits P body → emits P cleanup → emits P (try_finally body cleanup).
Proof. unfold emits. intros Hb Hc. simpl. by apply Forall_app. Qed.

Lemma emits_weaken (P Q : site → bool) (m : M A) :
  (∀ s, P s = true → Q s = true) → emits P m → emits Q m.
Proof. unfold emits. intros HPQ H. eapply Forall_impl; [exact H | eauto]. Qed.

End Laws1.

Lemma calls_to_app (s : site) (t1 t2 : list event) :
  calls_to s (t1 ++ t2) = (calls_to s t1 + calls_to s t2)%nat.
Proof. unfold calls_to. by rewrite filter_app, length_app. Qed.

(** A computation that calls no site [s] logs no call to it. *)
Lemma calls_to_emits {A} (P : site → bool) (s : site) (m : M A) :
  P s = false → emits P m → calls_to s (trace m) = 0%nat.
Proof.
  unfold emits, calls_to. intros Hs H.
  induction H as [|ev t Hev Ht IH]; [done |].
  rewrite filter_cons, decide_False; [done |]. intros Heq. congruence.
Qed.

Ltac emits_step :=
  first
    [ apply emits_ret
    | apply emits_pure
    | apply emits_call; reflexivity
    | apply emits_bind; [| intros ?]
    | apply emits_try_except; [| intros ?]
    | apply emits_try_finally
    | match goal with
      | |- emits _ (if ?b then _ else _) => destruct b
      | |- emits _ (match ?x with _ => _ end) => destruct x
      end ].

Ltac emits_auto := repeat emits_step.

End EffectFacts.

(** ** The structured extractor *)

Module ExtractorFacts.

Import Extractor Sample.

Section WithSoup.

Variable soup : node.

(** The zone label cell is the first [td] of the table, in document
    order, whose text contains the label. *)
Lemma find_zone_cell_first (table : path) :
  find_zone_cell soup table
  = head (filter (λ q, zone_label_in soup q = true) (find_all soup "td" table)).
Proof.
  unfold find_zone_cell, find_by, find_all.
  by rewrite (SoupFacts.find_all_by_and soup).
Qed.

Lemma find_zone_cell_absent (table : path) :
  Forall (λ q, zone_label_in soup q = false) (find_all soup "td" table) →
  find_zone_cell soup table = None.
Proof.
  intros H. rewrite find_zone_cell_first.
  induction H as [|q qs Hq Hqs IH]; [done |].
  rewrite filter_cons, decide_False; [done | by rewrite Hq].
Qed.

Lemma find_zone_cell_label (table zone_cell : path) :
  find_zone_cell soup table = Some zone_cell → zone_label_in soup zone_cell = true.
Proof.
  intros H. apply SoupFacts.find_by_test in H.
  by apply andb_true_iff in H as [_ H].
Qed.

Lemma walk_rows_extends (k : nat) (row : option path) (zones zones' : list string) :
  walk_rows soup k row zones = Ret zones' → ∃ rest, zones' = zones ++ rest.
Proof.
  revert row zones. induction k as [|k IH]; intros row zones H; simpl in H.
  - injection H as <-. exists []. by rewrite app_nil_r.
  - destruct row as [row|]; [| done].
    apply IH in H as [rest ->].
    destruct (find_next_sibling soup "tr" row) as [row'|]; [| by eauto].
    destruct (find soup "td" row'); [| by eauto].
    rewrite <- app_assoc. eauto.
Qed.

(** The walk survives one missing row, on its last round only. *)
Lemma walk_rows_last_round_missing (row : path) (zones : list string) :
  find_next_sibling soup "tr" row = None →
  walk_rows soup 1 (Some row) zones = Ret zones.
Proof. intros H. simpl. by rewrite H. Qed.

Lemma walk_rows_round_after_missing (k : nat) (row : path) (zones : list string) :
  find_next_sibling soup "tr" row = None →
  walk_rows soup (S (S k)) (Some row) zones
  = Raise (AttributeError_None "find_next_sibling").
Proof. intros H. simpl. by rewrite H. Qed.

Lemma scan_flood_cell_absent (tds : list path) :
  Forall (λ q, flood_label_in soup q = false) tds → scan_flood_cell soup tds = None.
Proof. induction 1 as [|q qs Hq Hqs IH]; [done |]. simpl. by rewrite Hq. Qed.

Lemma scan_flood_cell_first (before after : list path) (c : path) :
  Forall (λ q, flood_label_in soup q = false) before →
  flood_label_in soup c = true →
  scan_flood_cell soup (before ++ c :: after) = Some c.
Proof.
  intros Hb Hc. induction Hb as [|q qs Hq Hqs IH]; simpl.
  - by rewrite Hc.
  - by rewrite Hq.
Qed.

Lemma walk_rows_raises (k : nat) (row : option path) (zones : list string) (e : exn) :
  walk_rows soup k row zones = Raise e → is_Exception e = true.
Proof.
  revert row zones. induction k as [|k IH]; intros row zones H; simpl in H; [done |].
  destruct row as [row|]; [by apply IH in H | by injection H as <-].
Qed.

Lemma extract_zones_raises (table : path) (e : exn) :
  extract_zones soup table = Raise e → is_Exception e = true.
Proof.
  unfold extract_zones, rowspan_of. intros H.
  destruct (find_zone_cell soup table) as [zone_cell|]; [| done].
  destruct (get_attr (node_at soup zone_cell) "rowspan") as [s|]; simpl in H.
  - destruct (int_of_str s) as [err | z]; simpl in H; [by injection H as <- |].
    destruct (find_parent soup "tr" zone_cell); [| by injection H as <-].
    destruct (last _); [by apply walk_rows_raises in H | by injection H as <-].
  - destruct (find_parent soup "tr" zone_cell); [| by injection H as <-].
    destruct (last _); [done | by injection H as <-].
Qed.

Lemma extract_flood_raises (table : path) (e : exn) :
  extract_flood soup table = Raise e → is_Exception e = true.
Proof.
  unfold extract_flood. intros H.
  destruct (scan_flood_cell soup _) as [c|]; [| done].
  destruct (find_next_sibling soup "td" c); [done | by injection H as <-].
Qed.

(** Whatever the extractor raises is an [Exception]. *)
Lemma extract_fields_raises (apn href : string) (e : exn) :
  extract_fields soup apn href = Raise e → is_Exception e = true.
Proof.
  unfold extract_fields. intros H.
  destruct (find_table soup) as [table|]; [| by injection H as <-].
  destruct (extract_zones soup table) as [zones | e1] eqn:Hz; simpl in H.
  - destruct (extract_flood soup table) as [flood | e2] eqn:Hf; simpl in H; [done |].
    injection H as <-. by apply extract_flood_raises in Hf.
  - injection H as <-. by apply extract_zones_raises in Hz.
Qed.

End WithSoup.

End ExtractorFacts.

Import Extractor Sample.

(** ** The zone list *)

(** C6. Row-span reconstruction. A label cell with [rowspan="3"] whose row
    holds "A1-1" and whose two following rows hold "A2-4" and "RD1.5" gives
    the zones A1-1, A2-4, RD1.5 in that order; a label cell without a
    [rowspan] attribute, read as a span of 1, next to the cell "C2" gives
    the single zone C2. *)
Theorem rowspan_reconstruction :
  find_table three_zone_page = Some table_path
  ∧ extract_zones three_zone_page table_path = Ret ["A1-1"; "A2-4"; "RD1.5"]
  ∧ (∀ apn href,
       extract_fields three_zone_page apn href
       = Ret (zoning_record apn href ["A1-1"; "A2-4"; "RD1.5"] "Not Found"))
  ∧ get_attr (td "Zone(s):") "rowspan" = None
  ∧ rowspan_of (td "Zone(s):") = Ret 1
  ∧ extract_zones one_zone_page table_path = Ret ["C2"]
  ∧ (∀ apn href,
       extract_fields one_zone_page apn href
       = Ret (zoning_record apn href ["C2"] "Not Found")).
Proof. split_and!; try intros apn href; by vm_compute. Qed.

(** C3. The walk over the rows a label cell announces. On a table whose
    label cell has [rowspan="3"] and no row after the label's own, the
    second round of the loop calls [find_next_sibling] on [None]: the
    extractor raises and the scraper answers with an error, where a
    partial list with the one zone found was due. With [rowspan="2"] the
    missing row is met on the last round and the partial list is
    returned. *)
Theorem truncated_walk_raises :
  find_table truncated_page = Some table_path
  ∧ extract_zones truncated_page table_path
    = Raise (AttributeError_None "find_next_sibling")
  ∧ (∀ apn href,
       extract_fields truncated_page apn href
       = Raise (AttributeError_None "find_next_sibling"))
  ∧ (∀ apn,
       outcome (Idx.get_web_scraped_data (calm truncated_page) apn)
       = Ret (Idx.error_dict "'NoneType' object has no attribute 'find_next_sibling'"))
  ∧ extract_zones short_page table_path = Ret ["R1"].
Proof. split_and!; try intros apn; try intros href; by vm_compute. Qed.

(** C7. Missing optional labels. In a table none of whose cells contains
    "Zone(s):" the zone step returns the empty list without raising, and the
    extractor answers as the flood step does, with no zones. In a table none
    of whose cells contains "Flood Hazard Zone:" the flood step returns
    "Not Found", and the extractor answers as the zone step does: the zones
    it found, or its error. With neither label the extractor returns no
    zones and "Not Found". *)
Theorem missing_labels_degrade (soup : node) (table : path) (apn href : string) :
  find_table soup = Some table →
  (Forall (λ td, zone_label_in soup td = false) (find_all soup "td" table) →
     extract_zones soup table = Ret []
     ∧ extract_fields soup apn href
       = (flood ← extract_flood soup table; Ret (zoning_record apn href [] flood)))
  ∧ (Forall (λ td, flood_label_in soup td = false) (find_all soup "td" table) →
     extract_flood soup table = Ret "Not Found"
     ∧ extract_fields soup apn href
       = (zones ← extract_zones soup table;
          Ret (zoning_record apn href zones "Not Found")))
  ∧ (Forall (λ td, zone_label_in soup td = false) (find_all soup "td" table) →
     Forall (λ td, flood_label_in soup td = false) (find_all soup "td" table) →
     extract_fields soup apn href = Ret (zoning_record apn href [] "Not Found")).
Proof.
  intros Htable.
  assert (Forall (λ td, zone_label_in soup td = false) (find_all soup "td" table) →
          extract_zones soup table = Ret []) as Hzones.
  { intros H. unfold extract_zones.
    by rewrite (ExtractorFacts.find_zone_cell_absent soup table H). }
  assert (Forall (λ td, flood_label_in soup td = false) (find_all soup "td" table) →
          extract_flood soup table = Ret "Not Found") as Hflood.
  { intros H. unfold extract_flood.
    by rewrite (ExtractorFacts.scan_flood_cell_absent soup _ H). }
  unfold extract_fields. rewrite Htable. split_and!.
  - intros H. by rewrite (Hzones H).
  - intros H. rewrite (Hflood H). split; [done |].
    by destruct (extract_zones soup table).
  - intros Hz Hf. by rewrite (Hzones Hz), (Hflood Hf).
Qed.

Lemma missing_labels_degrade_witness :
  extract_zones bare_page table_path = Ret []
  ∧ extract_flood bare_page table_path = Ret "Not Found"
  ∧ extract_fields bare_page "1234-001-002" "https://x.com/p"
    = Ret (zoning_record "1234-001-002" "https://x.com/p" [] "Not Found").
Proof.
  assert (find_table bare_page = Some table_path) as Htable by reflexivity.
  assert (Forall (λ td, zone_label_in bare_page td = false)
            (find_all bare_page "td" table_path)) as Hz.
  { vm_compute. repeat constructor. }
  assert (Forall (λ td, flood_label_in bare_page td = false)
            (find_all bare_page "td" table_path)) as Hf.
  { vm_compute. repeat constructor. }
  destruct (missing_labels_degrade bare_page table_path
              "1234-001-002" "https://x.com/p" Htable) as (H1 & H2 & H3).
  split_and!; [apply (H1 Hz) | apply (H2 Hf) | apply (H3 Hz Hf)].
Defined.

(** C9. The label cell as its own value. When the "Zone(s):" label cell is
    the last [td] of its row, the zone list the extractor returns starts
    with the label cell's own text, which contains "Zone(s):". *)
Theorem label_cell_is_first_zone (soup : node) (table zone_cell row : path)
    (zones : list string) :
  find_zone_cell soup table = Some zone_cell →
  find_parent soup "tr" zone_cell = Some row →
  last (find_all soup "td" row) = Some zone_cell →
  extract_zones soup table = Ret zones →
  head zones = Some (get_text_strip (node_at soup zone_cell))
  ∧ Text.contains "Zone(s):" (get_text_strip (node_at soup zone_cell)) = true.
Proof.
  intros Hcell Hrow Hlast Hzones. split.
  - unfold extract_zones in Hzones. rewrite Hcell in Hzones.
    destruct (rowspan_of (node_at soup zone_cell)) as [rowspan | e]; [| done].
    simpl in Hzones. rewrite Hrow, Hlast in Hzones.
    by apply ExtractorFacts.walk_rows_extends in Hzones as [rest ->].
  - apply SoupFacts.get_text_strip_contains; [done |].
    by apply ExtractorFacts.find_zone_cell_label in Hcell.
Qed.

Lemma label_cell_is_first_zone_witness :
  extract_zones label_only_page table_path = Ret ["Zone(s):"]
  ∧ head ["Zone(s):"] = Some (get_text_strip (node_at label_only_page [0; 0; 0; 0; 0]%nat))
  ∧ Text.contains "Zone(s):"
      (get_text_strip (node_at label_only_page [0; 0; 0; 0; 0]%nat)) = true.
Proof.
  assert (extract_zones label_only_page table_path = Ret ["Zone(s):"]) as Hzones
    by reflexivity.
  split; [exact Hzones |].
  apply (label_cell_is_first_zone label_only_page table_path
           [0; 0; 0; 0; 0]%nat [0; 0; 0; 0]%nat ["Zone(s):"]);
    [reflexivity | reflexivity | reflexivity | exact Hzones].
Defined.

(** ** The scraper *)

Module IdxFacts.

Import Observe EffectFacts Idx.

Section WithWorld.

Variable w : world.

Lemma navigate_emits (apn : string) : emits route_site (navigate_and_extract w apn).
Proof. unfold navigate_and_extract. emits_auto. Qed.

(** The guarded route calls the sites of the route and the screenshot,
    and nothing else. *)
Lemma guarded_route_emits (apn : string) :
  emits (λ s, route_site s || bool_decide (s = Screenshot)) (guarded_route w apn).
Proof.
  unfold guarded_route, on_error. apply emits_try_except.
  - eapply emits_weaken; [| apply navigate_emits]. intros s ->. done.
  - intros e. emits_auto.
Qed.

Lemma get_random_user_agent_ret :
  user_agents w ≠ [] → ∃ ua, get_random_user_agent w = Ret ua.
Proof. unfold get_random_user_agent. destruct (user_agents w); [done | eauto]. Qed.

(** Once the page is open the scraper is the guarded route followed by
    one call to [browser.close] and the stop of the driver. *)
Lemma scrape_opened (apn : string) (url : json) :
  page_opened w →
  scrape_and_extract_zones w apn url
  = (match effect_outcome w PlaywrightStop with
     | Ret _ =>
         match effect_outcome w Close with
         | Ret _ => outcome (guarded_route w apn)
         | Raise e => Raise e
         end
     | Raise e => Raise e
     end,
     [Event PlaywrightStart true; Event Connect true;
      Event NewContext true; Event NewPage true]
     ++ trace (guarded_route w apn)
     ++ [Event Close (is_ret (effect_outcome w Close));
         Event PlaywrightStop (is_ret (effect_outcome w PlaywrightStop))]).
Proof.
  intros [Hstart Hconnect Hagent Hcontext Hpage].
  destruct (get_random_user_agent_ret Hagent) as [ua Hua].
  unfold scrape_and_extract_zones. rewrite Hstart, Hconnect, Hua, Hcontext, Hpage.
  destruct (guarded_route w apn) as [r t].
  destruct (effect_outcome w Close) as [[] | e1];
    destruct (effect_outcome w PlaywrightStop) as [[] | e2]; simpl.
  all: rewrite <- ?app_assoc; reflexivity.
Qed.

(** With the page open, [browser.close] is called exactly once, however
    the guarded route ends. *)
Lemma close_once_opened (apn : string) (url : json) :
  page_opened w →
  calls_to Close (trace (scrape_and_extract_zones w apn url)) = 1%nat.
Proof.
  intros Hopen. rewrite (scrape_opened apn url Hopen).
  unfold trace at 1. cbn [snd]. rewrite !calls_to_app.
  rewrite (calls_to_emits _ Close _ eq_refl (guarded_route_emits apn)).
  reflexivity.
Qed.

(** [browser.close] is called once when the page was opened and not at
    all otherwise: never twice, and never after a set-up that failed, be it
    before or after the browser was attached. *)
Lemma close_only_when_opened (apn : string) (url : json) :
  (page_opened w ∧ calls_to Close (trace (scrape_and_extract_zones w apn url)) = 1%nat)
  ∨ (¬ page_opened w
     ∧ calls_to Close (trace (scrape_and_extract_zones w apn url)) = 0%nat).
Proof.
  destruct (effect_outcome w PlaywrightStart) as [[] | e] eqn:Hstart.
  2: { right. split; [intros [H]; congruence |].
       unfold scrape_and_extract_zones. by rewrite Hstart. }
  destruct (effect_outcome w Connect) as [[] | e] eqn:Hconnect.
  2: { right. split; [intros [_ H]; congruence |].
       unfold scrape_and_extract_zones. by rewrite Hstart, Hconnect. }
  destruct (user_agents w) as [|ua uas] eqn:Hagents.
  { right. split; [by intros [_ _ H] |].
    unfold scrape_and_extract_zones, get_random_user_agent.
    by rewrite Hstart, Hconnect, Hagents. }
  destruct (effect_outcome w NewContext) as [[] | e] eqn:Hcontext.
  2: { right. split; [intros [_ _ _ H]; congruence |].
       unfold scrape_and_extract_zones, get_random_user_agent.
       by rewrite Hstart, Hconnect, Hagents, Hcontext. }
  destruct (effect_outcome w NewPage) as [[] | e] eqn:Hpage.
  2: { right. split; [intros [_ _ _ _ H]; congruence |].
       unfold scrape_and_extract_zones, get_random_user_agent.
       by rewrite Hstart, Hconnect, Hagents, Hcontext, Hpage. }
  left. assert (page_opened w) as Hopen.
  { constructor; try done. by rewrite Hagents. }
  split; [done | by apply close_once_opened].
Qed.

(** The route that reaches the report ends as the extractor does. *)
Lemma navigate_loaded (apn href : string) (soup : node) :
  report_loaded w href soup →
  outcome (navigate_and_extract w apn)
  = Extractor.extract_fields soup apn (Text.remove_char " " href).
Proof.
  intros [Heff Ht1 (title & Ht2 & Havail) Hframe Hwait Hclick Hhref Ht3 Hcontent].
  repeat (apply Forall_cons in Heff as [? Heff]).
  destruct (title_outcome w Title1) as [t1 | ?] eqn:Et1; [| done].
  destruct (title_outcome w Title3) as [t3 | ?] eqn:Et3; [| done].
  unfold navigate_and_extract.
  repeat match goal with H : effect_outcome w _ = Ret () |- _ => rewrite H; clear H end.
  rewrite Et1, Ht2, Et3, Hhref, Hcontent, Hframe. simpl. rewrite Havail. simpl.
  destruct (effect_outcome w AckWait) as [[] | e1] eqn:Ew; simpl.
  - destruct (effect_outcome w AckClick) as [[] | e2] eqn:Ec; simpl.
    + by destruct (Extractor.extract_fields _ _ _).
    + rewrite (Hclick e2 eq_refl). simpl. by destruct (Extractor.extract_fields _ _ _).
  - rewrite (Hwait e1 eq_refl). simpl. by destruct (Extractor.extract_fields _ _ _).
Qed.

(** An [Exception] raised in the [try] block is answered by a screenshot
    and, when that call returns, by the error dictionary of its
    message. *)
Lemma guarded_route_failure (apn : string) (e : exn) :
  outcome (navigate_and_extract w apn) = Raise e →
  is_Exception e = true →
  guarded_route w apn
  = (match effect_outcome w Screenshot with
     | Ret _ => Ret (error_dict (str e))
     | Raise e' => Raise e'
     end,
     trace (navigate_and_extract w apn)
     ++ [Event Screenshot (is_ret (effect_outcome w Screenshot))]).
Proof.
  unfold guarded_route, on_error, outcome, trace.
  destruct (navigate_and_extract w apn) as [r t]. simpl. intros -> He.
  unfold try_except. rewrite He.
  by destruct (effect_outcome w Screenshot) as [[] | e'].
Qed.

Lemma guarded_route_return (apn : string) (d : gmap string value) :
  outcome (navigate_and_extract w apn) = Ret d →
  guarded_route w apn = (Ret d, trace (navigate_and_extract w apn)).
Proof.
  unfold guarded_route, outcome, trace.
  destruct (navigate_and_extract w apn) as [r t]. simpl. by intros ->.
Qed.

Lemma scrape_reports_failure (apn : string) (url : json) (e : exn) :
  page_opened w →
  outcome (navigate_and_extract w apn) = Raise e →
  is_Exception e = true →
  effect_outcome w Screenshot = Ret () →
  effect_outcome w Close = Ret () →
  effect_outcome w PlaywrightStop = Ret () →
  outcome (scrape_and_extract_zones w apn url) = Ret (error_dict (str e)).
Proof.
  intros Hopen Hnav He Hshot Hclose Hstop.
  rewrite (scrape_opened apn url Hopen), (guarded_route_failure apn e Hnav He).
  by rewrite Hshot, Hclose, Hstop.
Qed.

Lemma scrape_returns (apn : string) (url : json) (d : gmap string value) :
  page_opened w →
  outcome (navigate_and_extract w apn) = Ret d →
  effect_outcome w Close = Ret () →
  effect_outcome w PlaywrightStop = Ret () →
  scrape_and_extract_zones w apn url
  = (Ret d,
     [Event PlaywrightStart true; Event Connect true;
      Event NewContext true; Event NewPage true]
     ++ trace (navigate_and_extract w apn)
     ++ [Event Close true; Event PlaywrightStop true]).
Proof.
  intros Hopen Hnav Hclose Hstop.
  rewrite (scrape_opened apn url Hopen), (guarded_route_return apn d Hnav).
  by rewrite Hclose, Hstop.
Qed.

(** The portal out of service: the [try] block returns at line 172. *)
Lemma navigate_unavailable (apn title : string) :
  effect_outcome w GotoPortal = Ret () →
  is_ret (title_outcome w Title1) = true →
  title_outcome w Title2 = Ret title →
  Text.contains "Service unavailable" title = true →
  navigate_and_extract w apn
  = (Ret (error_dict "Service unavailable"),
     [Event GotoPortal true; Event Title1 true; Event Title2 true]).
Proof.
  intros Hgoto Ht1 Ht2 Htitle. unfold navigate_and_extract.
  destruct (title_outcome w Title1) as [t1 | ?]; [| done].
  rewrite Hgoto, Ht2. simpl. by rewrite Htitle.
Qed.

Lemma foldl_insert_nonempty (l : list (string * sqlval)) (d : gmap string sqlval) :
  d ≠ ∅ → foldl (λ d kv, <[kv.1 := kv.2]> d) d l ≠ ∅.
Proof.
  revert d. induction l as [|kv l IH]; intros d Hd; [done |].
  apply IH, insert_non_empty.
Qed.

Lemma dict_of_row_nonempty (v : sqlval) (row : list sqlval) :
  dict_of_row (v :: row) ≠ ∅.
Proof.
  change (dict_of_row (v :: row))
    with (foldl (λ (d : gmap string sqlval) (kv : string * sqlval), <[kv.1 := kv.2]> d)
                (<["AIN" := v]> (∅ : gmap string sqlval))
                (zip (tail columns) row)).
  apply foldl_insert_nonempty, insert_non_empty.
Qed.

(** What the local lookup returns is a truthy dictionary or [None]. *)
Lemma parcel_local_search_truthy (apn : string) (d : gmap string sqlval) :
  outcome (parcel_local_search w apn) = Ret (Some d) → if_truthy (Some d) = Some d.
Proof.
  unfold parcel_local_search. destruct (fetchone_outcome w) as [[[|v row]|]|e]; try done.
  simpl. intros [= <-]. by rewrite bool_decide_true by apply dict_of_row_nonempty.
Qed.

Lemma parcel_local_search_trace (apn : string) :
  trace (parcel_local_search w apn)
  = [Event SqlFetchone (is_ret (fetchone_outcome w))].
Proof.
  unfold parcel_local_search. by destruct (fetchone_outcome w) as [[[|v row]|]|e].
Qed.

Lemma tier1_emits : emits tier1_site (retrieve_context w)
                    ∧ emits tier1_site (call_gemini_flash w).
Proof. unfold retrieve_context, call_gemini_flash. split; emits_auto. Qed.

(** The fallback starts with the request to the broker. *)
Lemma fallback_starts_with_post (apn : string) :
  ∃ rest, trace (get_web_scraped_data w apn)
          = Event BrokerPost (is_ret (post_outcome w)) :: rest.
Proof.
  unfold get_web_scraped_data, create_browserbase_session.
  rewrite !trace_bind. simpl. eauto.
Qed.

Lemma status_accepted (status : Z) :
  status ∈ [200; 201] ↔ status = 200 ∨ status = 201.
Proof. rewrite !elem_of_cons, elem_of_nil. tauto. Qed.

Lemma create_session_rejected (resp : response) :
  post_outcome w = Ret resp →
  status_code resp ≠ 200 → status_code resp ≠ 201 →
  create_browserbase_session w = (Ret JNull, [Event BrokerPost true]).
Proof.
  intros Hpost H200 H201. unfold create_browserbase_session. rewrite Hpost.
  unfold call. rewrite bind_ret, bool_decide_false; [done |].
  rewrite status_accepted. tauto.
Qed.

Lemma create_session_accepted (resp : response) :
  post_outcome w = Ret resp →
  status_code resp = 200 ∨ status_code resp = 201 →
  create_browserbase_session w = (json_body resp, [Event BrokerPost true]).
Proof.
  intros Hpost Hstatus. unfold create_browserbase_session. rewrite Hpost.
  unfold call. rewrite bind_ret, bool_decide_true; [done |].
  by rewrite status_accepted.
Qed.

Lemma create_session_error (e : exn) :
  post_outcome w = Raise e →
  create_browserbase_session w = (Raise e, [Event BrokerPost false]).
Proof. intros Hpost. unfold create_browserbase_session. by rewrite Hpost. Qed.

End WithWorld.

End IdxFacts.

Import Observe Idx.

(** ** The flood hazard zone *)

(** C10. The flood hazard scan. The scan stops at the first [td] of the
    table, in document order, whose stripped text contains
    "Flood Hazard Zone:", and the field is the text of the next sibling [td]
    of that cell. When the cell has no such sibling the extractor raises an
    [Exception], and a scraper that reached the report page answers with the
    error dictionary of its message instead of a record. *)
Theorem flood_label_without_value (soup : node) (table c : path)
    (before after : list path) :
  find_table soup = Some table →
  find_all soup "td" table = before ++ c :: after →
  Forall (λ td, flood_label_in soup td = false) before →
  flood_label_in soup c = true →
  scan_flood_cell soup (find_all soup "td" table) = Some c
  ∧ extract_flood soup table
    = match find_next_sibling soup "td" c with
      | Some value_cell => Ret (get_text_strip (node_at soup value_cell))
      | None => Raise (AttributeError_None "get_text")
      end
  ∧ (find_next_sibling soup "td" c = None →
     ∀ (w : world) (apn href : string) (url : json),
       page_opened w →
       report_loaded w href soup →
       effect_outcome w Screenshot = Ret () →
       effect_outcome w Close = Ret () →
       effect_outcome w PlaywrightStop = Ret () →
       ∃ e, extract_fields soup apn (Text.remove_char " " href) = Raise e
            ∧ outcome (scrape_and_extract_zones w apn url) = Ret (error_dict (str e))).
Proof.
  intros Htable Htds Hbefore Hc.
  assert (scan_flood_cell soup (find_all soup "td" table) = Some c) as Hscan.
  { rewrite Htds. by apply ExtractorFacts.scan_flood_cell_first. }
  assert (extract_flood soup table
          = match find_next_sibling soup "td" c with
            | Some value_cell => Ret (get_text_strip (node_at soup value_cell))
            | None => Raise (AttributeError_None "get_text")
            end) as Hflood.
  { unfold extract_flood. by rewrite Hscan. }
  split_and!; [done | done |].
  intros Hnone w apn href url Hopen Hloaded Hshot Hclose Hstop.
  rewrite Hnone in Hflood.
  assert (∃ e, extract_fields soup apn (Text.remove_char " " href) = Raise e) as [e He].
  { unfold extract_fields. rewrite Htable, Hflood.
    destruct (extract_zones soup table); simpl; eauto. }
  exists e. split; [done |].
  apply IdxFacts.scrape_reports_failure; try done.
  - by rewrite (IdxFacts.navigate_loaded w apn href soup Hloaded).
  - by apply ExtractorFacts.extract_fields_raises in He.
Qed.

Lemma flood_label_without_value_witness :
  extract_flood flood_label_only_page table_path = Raise (AttributeError_None "get_text")
  ∧ ∃ e, extract_fields flood_label_only_page "1234-001-002"
           (Text.remove_char " " "https://x.com/Parcel Profile Detail2") = Raise e
         ∧ outcome (scrape_and_extract_zones (calm flood_label_only_page)
                      "1234-001-002" (JStr "wss://connect"))
           = Ret (error_dict (str e)).
Proof.
  destruct (flood_label_without_value flood_label_only_page table_path
              [0; 0; 0; 1; 0]%nat
              [[0; 0; 0; 0; 0]; [0; 0; 0; 0; 1]]%nat [])
    as (_ & Hflood & Hfail).
  - reflexivity.
  - reflexivity.
  - repeat constructor.
  - reflexivity.
  - split; [exact Hflood |].
    apply Hfail; try reflexivity.
    + constructor; try reflexivity. simpl. discriminate.
    + constructor; try reflexivity.
      * repeat constructor.
      * eexists. split; reflexivity.
      * intros e. discriminate.
      * intros e. discriminate.
Defined.

(** ** Failures inside the [try] block *)

(** C5, as the code has it. With the page open and the close and the stop
    of the driver returning: an [Exception] raised by a step of the [try]
    block is followed by one screenshot call, made before the browser is
    closed, and when that call returns the scraper returns the error
    dictionary of the exception's message; a [try] block that returns, as
    it does with the dictionary for "Service unavailable", is followed by
    no screenshot. *)
Theorem failure_reported_after_screenshot (w : world) (apn : string) (url : json) :
  page_opened w →
  effect_outcome w Close = Ret () →
  effect_outcome w PlaywrightStop = Ret () →
  (∀ e, outcome (navigate_and_extract w apn) = Raise e →
        is_Exception e = true →
        trace (scrape_and_extract_zones w apn url)
        = [Event PlaywrightStart true; Event Connect true;
           Event NewContext true; Event NewPage true]
          ++ trace (navigate_and_extract w apn)
          ++ [Event Screenshot (is_ret (effect_outcome w Screenshot));
              Event Close true; Event PlaywrightStop true]
        ∧ calls_to Screenshot (trace (scrape_and_extract_zones w apn url)) = 1%nat
        ∧ (effect_outcome w Screenshot = Ret () →
           outcome (scrape_and_extract_zones w apn url) = Ret (error_dict (str e))))
  ∧ (∀ d, outcome (navigate_and_extract w apn) = Ret d →
          outcome (scrape_and_extract_zones w apn url) = Ret d
          ∧ calls_to Screenshot (trace (scrape_and_extract_zones w apn url)) = 0%nat)
  ∧ (∀ title, effect_outcome w GotoPortal = Ret () →
              is_ret (title_outcome w Title1) = true →
              title_outcome w Title2 = Ret title →
              Text.contains "Service unavailable" title = true →
              scrape_and_extract_zones w apn url
              = (Ret (error_dict "Service unavailable"),
                 [Event PlaywrightStart true; Event Connect true;
                  Event NewContext true; Event NewPage true;
                  Event GotoPortal true; Event Title1 true; Event Title2 true;
                  Event Close true; Event PlaywrightStop true])).
Proof.
  intros Hopen Hclose Hstop.
  pose proof (EffectFacts.calls_to_emits _ Screenshot _ eq_refl
                (IdxFacts.navigate_emits w apn)) as Hnone.
  split_and!.
  - intros e Hnav He.
    assert (trace (scrape_and_extract_zones w apn url)
            = [Event PlaywrightStart true; Event Connect true;
               Event NewContext true; Event NewPage true]
              ++ trace (navigate_and_extract w apn)
              ++ [Event Screenshot (is_ret (effect_outcome w Screenshot));
                  Event Close true; Event PlaywrightStop true]) as Htrace.
    { rewrite (IdxFacts.scrape_opened w apn url Hopen).
      rewrite (IdxFacts.guarded_route_failure w apn e Hnav He), Hclose, Hstop.
      rewrite !EffectFacts.trace_pair. cbn [is_ret]. f_equal.
      by rewrite <- app_assoc. }
    split_and!.
    + done.
    + rewrite Htrace, !EffectFacts.calls_to_app, Hnone. reflexivity.
    + intros Hshot. by apply IdxFacts.scrape_reports_failure.
  - intros d Hnav. rewrite (IdxFacts.scrape_returns w apn url d Hopen Hnav Hclose Hstop).
    split; [done |]. rewrite EffectFacts.trace_pair.
    rewrite !EffectFacts.calls_to_app, Hnone. reflexivity.
  - intros title Hgoto Ht1 Ht2 Htitle.
    pose proof (IdxFacts.navigate_unavailable w apn title Hgoto Ht1 Ht2 Htitle) as Hnav.
    rewrite (IdxFacts.scrape_returns w apn url (error_dict "Service unavailable")
               Hopen); [| by rewrite Hnav | done | done].
    by rewrite Hnav.
Qed.

Lemma failure_reported_after_screenshot_witness :
  outcome (scrape_and_extract_zones (without_frame (calm r1_page))
             "1234-001-002" (JStr "wss://connect"))
  = Ret (error_dict "Iframe not found.").
Proof.
  destruct (failure_reported_after_screenshot (without_frame (calm r1_page))
              "1234-001-002" (JStr "wss://connect")) as (Hfail & _ & _).
  - constructor; try reflexivity. simpl. discriminate.
  - reflexivity.
  - reflexivity.
  - destruct (Hfail (Exception "Iframe not found.")) as (_ & _ & Hreport);
      [reflexivity | reflexivity |].
    apply Hreport. reflexivity.
Defined.

(** C5 as stated fails: when the widget's iframe is missing and the
    screenshot call raises, the scraper raises the error of the screenshot
    and the message of the navigation failure is lost. *)
Lemma screenshot_failure_masks_error :
  outcome (navigate_and_extract
             (failing_at Screenshot (Exception "disk full") (without_frame (calm r1_page)))
             "1234-001-002")
  = Raise (Exception "Iframe not found.")
  ∧ get_web_scraped_data
      (failing_at Screenshot (Exception "disk full") (without_frame (calm r1_page)))
      "1234-001-002"
    = (Raise (Exception "disk full"),
       [Event BrokerPost true; Event PlaywrightStart true; Event Connect true;
        Event NewContext true; Event NewPage true;
        Event GotoPortal true; Event Title1 true; Event Title2 true;
        Event Screenshot false; Event Close true; Event PlaywrightStop true]).
Proof. split; by vm_compute. Qed.

(** ** Provisioning *)

(** C4, as the code has it. A broker status other than 200 and 201, and so
    every status outside 2xx, makes the provisioner return [None] and the
    orchestrator return the dictionary with the error "Failed to create
    Browserbase session". On a status 200 or 201 the provisioner returns
    the decoded body as it is, and when that body is falsy the orchestrator
    returns the same dictionary. An error of the request or of the
    decoding of the body is raised by the provisioner and so to the caller
    of the orchestrator. In each case the request to the broker is the only
    call made: no browser is opened. *)
Theorem provisioning_failure (w : world) (apn : string) :
  (∀ resp, post_outcome w = Ret resp →
           status_code resp ≠ 200 → status_code resp ≠ 201 →
           create_browserbase_session w = (Ret JNull, [Event BrokerPost true])
           ∧ get_web_scraped_data w apn
             = (Ret (error_dict "Failed to create Browserbase session"),
                [Event BrokerPost true]))
  ∧ (∀ resp session, post_outcome w = Ret resp →
           status_code resp = 200 ∨ status_code resp = 201 →
           json_body resp = Ret session → truthy session = false →
           create_browserbase_session w = (Ret session, [Event BrokerPost true])
           ∧ get_web_scraped_data w apn
             = (Ret (error_dict "Failed to create Browserbase session"),
                [Event BrokerPost true]))
  ∧ (∀ e, post_outcome w = Raise e →
          create_browserbase_session w = (Raise e, [Event BrokerPost false])
          ∧ get_web_scraped_data w apn = (Raise e, [Event BrokerPost false]))
  ∧ (∀ resp e, post_outcome w = Ret resp →
          status_code resp = 200 ∨ status_code resp = 201 →
          json_body resp = Raise e →
          create_browserbase_session w = (Raise e, [Event BrokerPost true])
          ∧ get_web_scraped_data w apn = (Raise e, [Event BrokerPost true])).
Proof.
  split_and!.
  - intros resp Hpost H200 H201.
    pose proof (IdxFacts.create_session_rejected w resp Hpost H200 H201) as Hnone.
    split; [done |]. unfold get_web_scraped_data. by rewrite Hnone.
  - intros resp session Hpost Hstatus Hbody Hfalsy. unfold get_web_scraped_data.
    rewrite (IdxFacts.create_session_accepted w resp Hpost Hstatus), Hbody.
    split; [done |]. rewrite EffectFacts.bind_ret, Hfalsy. done.
  - intros e Hpost. unfold get_web_scraped_data.
    by rewrite (IdxFacts.create_session_error w e Hpost).
  - intros resp e Hpost Hstatus Hbody. unfold get_web_scraped_data.
    by rewrite (IdxFacts.create_session_accepted w resp Hpost Hstatus), Hbody.
Qed.

Lemma provisioning_failure_witness :
  get_web_scraped_data (with_response (Response 503 (Raise (Exception "no body")))
                          (calm r1_page)) "1234-001-002"
  = (Ret (error_dict "Failed to create Browserbase session"), [Event BrokerPost true]).
Proof.
  destruct (provisioning_failure
              (with_response (Response 503 (Raise (Exception "no body"))) (calm r1_page))
              "1234-001-002") as (Hstatus & _).
  apply (Hstatus (Response 503 (Raise (Exception "no body")))).
  - reflexivity.
  - simpl. lia.
  - simpl. lia.
Defined.

(** C4 as stated fails: when the request to the broker raises, the
    orchestrator raises too and returns no failure record. *)
Lemma network_error_escapes_orchestrator :
  get_web_scraped_data
    (failing_at BrokerPost (Exception "Connection refused") (calm r1_page))
    "1234-001-002"
  = (Raise (Exception "Connection refused"), [Event BrokerPost false]).
Proof. by vm_compute. Qed.

(** ** The endpoint *)

(** C2, as the code has it. Whatever the endpoint returns carries the key
    "source" with the value "database" or "webscraper". After a local miss,
    with a session granted and the page open, an [Exception] raised by a
    step of the [try] block comes back as the dictionary of its message
    tagged "webscraper" when the screenshot, the close and the stop of the
    driver return; an error of the request to the broker is raised by the
    endpoint. *)
Theorem returned_responses_are_tagged (w : world) (apn : string) :
  (∀ resp, outcome (get_parcel_details_and_explanation w apn) = Ret resp →
           resp !! "source" = Some (VStr "database")
           ∨ resp !! "source" = Some (VStr "webscraper"))
  ∧ (∀ url e, outcome (parcel_local_search w apn) = Ret None →
              session_granted w url →
              page_opened w →
              outcome (navigate_and_extract w apn) = Raise e →
              is_Exception e = true →
              effect_outcome w Screenshot = Ret () →
              effect_outcome w Close = Ret () →
              effect_outcome w PlaywrightStop = Ret () →
              outcome (get_parcel_details_and_explanation w apn)
              = Ret (<["source" := VStr "webscraper"]> (error_dict (str e))))
  ∧ (∀ e, outcome (parcel_local_search w apn) = Ret None →
          post_outcome w = Raise e →
          outcome (get_parcel_details_and_explanation w apn) = Raise e).
Proof.
  split_and!.
  - intros resp. unfold get_parcel_details_and_explanation.
    rewrite EffectFacts.outcome_bind.
    destruct (outcome (parcel_local_search w apn)) as [parcel_data | e]; [| done].
    destruct (if_truthy parcel_data) as [d|].
    + rewrite !EffectFacts.outcome_bind.
      destruct (outcome (retrieve_context w)) as [context | e]; [| done].
      rewrite !EffectFacts.outcome_bind.
      destruct (outcome (call_gemini_flash w)) as [explanation | e]; [| done].
      intros [= <-]. left. by simplify_map_eq.
    + rewrite !EffectFacts.outcome_bind.
      destruct (outcome (get_web_scraped_data w apn)) as [web_data | e]; [| done].
      intros [= <-]. right. by simplify_map_eq.
  - intros url e Hmiss [(resp & session & Hpost & Hstatus & Hbody & Htruthy & Hurl)]
      Hopen Hnav He Hshot Hclose Hstop.
    unfold get_parcel_details_and_explanation.
    rewrite EffectFacts.outcome_bind, Hmiss. simpl.
    rewrite EffectFacts.outcome_bind.
    assert (outcome (get_web_scraped_data w apn) = Ret (error_dict (str e))) as ->; [| done].
    unfold get_web_scraped_data.
    rewrite (IdxFacts.create_session_accepted w resp Hpost Hstatus), Hbody.
    rewrite EffectFacts.bind_ret, Htruthy. cbn [negb].
    unfold pure. rewrite Hurl, EffectFacts.bind_ret. cbn [fst].
    by apply IdxFacts.scrape_reports_failure.
  - intros e Hmiss Hpost. unfold get_parcel_details_and_explanation.
    rewrite EffectFacts.outcome_bind, Hmiss. simpl.
    rewrite EffectFacts.outcome_bind.
    unfold get_web_scraped_data.
    by rewrite (IdxFacts.create_session_error w e Hpost).
Qed.

(** C2 as stated fails: after a local miss, an error of the request to the
    broker leaves the endpoint as an exception, not as a failure
    dictionary. *)
Lemma broker_fault_escapes_endpoint :
  get_parcel_details_and_explanation
    (failing_at BrokerPost (Exception "Connection refused") (calm r1_page))
    "1234-001-002"
  = (Raise (Exception "Connection refused"),
     [Event SqlFetchone true; Event BrokerPost false]).
Proof. by vm_compute. Qed.

Lemma returned_responses_are_tagged_witness :
  outcome (get_parcel_details_and_explanation (without_frame (calm r1_page))
             "1234-001-002")
  = Ret (<["source" := VStr "webscraper"]> (error_dict "Iframe not found."))
  ∧ (<["source" := VStr "webscraper"]> (error_dict "Iframe not found.")
       : gmap string value) !! "source" = Some (VStr "webscraper").
Proof.
  destruct (returned_responses_are_tagged (without_frame (calm r1_page))
              "1234-001-002") as (Htag & Hfail & _).
  assert (outcome (get_parcel_details_and_explanation (without_frame (calm r1_page))
                     "1234-001-002")
          = Ret (<["source" := VStr "webscraper"]> (error_dict "Iframe not found.")))
    as Hrun.
  { apply (Hfail (JStr "wss://connect") (Exception "Iframe not found.")); try reflexivity.
    - constructor. eexists _, _. split_and!; try reflexivity. right. reflexivity.
    - constructor; try reflexivity. simpl. discriminate. }
  split; [exact Hrun |].
  destruct (Htag _ Hrun) as [Hdb | Hweb]; [discriminate Hdb | exact Hweb].
Defined.

(** C8. Tier-1 exclusivity. When the local lookup returns a record the
    endpoint calls only the sites of the first tier; the fallback is
    attempted exactly when the lookup returns [None]; and when the lookup
    raises, the endpoint raises the same error after that one call. *)
Theorem tier1_exclusive (w : world) (apn : string) :
  (∀ d, outcome (parcel_local_search w apn) = Ret (Some d) →
        emits tier1_site (get_parcel_details_and_explanation w apn)
        ∧ ¬ fallback_attempted (trace (get_parcel_details_and_explanation w apn)))
  ∧ (fallback_attempted (trace (get_parcel_details_and_explanation w apn))
     ↔ outcome (parcel_local_search w apn) = Ret None)
  ∧ (∀ e, outcome (parcel_local_search w apn) = Raise e →
          get_parcel_details_and_explanation w apn
          = (Raise e, [Event SqlFetchone false])).
Proof.
  assert (∀ t, Forall (λ ev, tier1_site (ev_site ev) = true) t → ¬ fallback_attempted t)
    as Hexcl.
  { intros t Hall Hex. apply Exists_exists in Hex as (ev & Hin & Hev).
    rewrite Forall_forall in Hall. specialize (Hall ev Hin). congruence. }
  assert (∀ d, outcome (parcel_local_search w apn) = Ret (Some d) →
               emits tier1_site (get_parcel_details_and_explanation w apn)) as Hfound.
  { intros d Hd. unfold get_parcel_details_and_explanation.
    pose proof (IdxFacts.parcel_local_search_truthy w apn d Hd) as Htruthy.
    pose proof (IdxFacts.parcel_local_search_trace w apn) as Htrace.
    destruct (parcel_local_search w apn) as [r t]. simpl in Hd, Htrace. subst r t.
    rewrite EffectFacts.bind_ret, Htruthy. unfold emits. rewrite EffectFacts.trace_pair.
    apply Forall_app. split; [by repeat constructor |].
    destruct (IdxFacts.tier1_emits w) as [Hctx Hgen].
    apply EffectFacts.emits_bind; [done |]. intros context.
    apply EffectFacts.emits_bind; [done |]. intros explanation.
    apply EffectFacts.emits_ret. }
  assert (∀ e, outcome (parcel_local_search w apn) = Raise e →
               get_parcel_details_and_explanation w apn
               = (Raise e, [Event SqlFetchone false])) as Herror.
  { intros e He. unfold get_parcel_details_and_explanation.
    revert He. unfold parcel_local_search.
    destruct (fetchone_outcome w) as [[[|v row]|]|e']; try done.
    simpl. by intros [= ->]. }
  split_and!.
  - intros d Hd. split; [by apply (Hfound d) | by apply Hexcl, (Hfound d)].
  - split.
    + intros Hattempt.
      destruct (outcome (parcel_local_search w apn)) as [[d|] | e] eqn:Hout.
      * exfalso. by eapply Hexcl; [apply (Hfound d) |].
      * done.
      * exfalso. rewrite (Herror e eq_refl) in Hattempt.
        apply Exists_exists in Hattempt as (ev & Hin & Hev).
        apply list_elem_of_singleton in Hin as ->. done.
    + intros Hmiss. unfold get_parcel_details_and_explanation.
      rewrite EffectFacts.trace_bind, Hmiss. cbn [if_truthy].
      destruct (IdxFacts.fallback_starts_with_post w apn) as [rest Hrest].
      rewrite EffectFacts.trace_bind, Hrest.
      apply Exists_app. right. apply Exists_app. left. by apply Exists_cons_hd.
  - exact Herror.
Qed.

Lemma tier1_exclusive_witness :
  ¬ fallback_attempted
      (trace (get_parcel_details_and_explanation
                (with_row (Some [SqlText "1234-001-002"; SqlText "1 Main St"])
                   (calm r1_page)) "1234-001-002")).
Proof.
  destruct (tier1_exclusive
              (with_row (Some [SqlText "1234-001-002"; SqlText "1 Main St"])
                 (calm r1_page)) "1234-001-002") as (Hfound & _ & _).
  apply (Hfound (dict_of_row [SqlText "1234-001-002"; SqlText "1 Main St"])).
  reflexivity.
Defined.

(** ** The browser *)

(** C1. The close of the browser. [browser.close] sits in the [finally] of
    a [try] that starts after the context and the page are created. When
    the browser is attached and creating the context raises, or when the
    list of user agents is empty as in the published file, the scraper
    raises without calling [browser.close]: the trace has the successful
    connection and no close. *)
Theorem setup_failure_leaves_browser_open :
  get_web_scraped_data
    (failing_at NewContext (Exception "Target closed") (calm r1_page)) "1234-001-002"
  = (Raise (Exception "Target closed"),
     [Event BrokerPost true; Event PlaywrightStart true; Event Connect true;
      Event NewContext false; Event PlaywrightStop true])
  ∧ calls_to Close
      (trace (get_web_scraped_data
                (failing_at NewContext (Exception "Target closed") (calm r1_page))
                "1234-001-002")) = 0%nat
  ∧ get_web_scraped_data (with_user_agents [] (calm r1_page)) "1234-001-002"
    = (Raise (IndexError "Cannot choose from an empty sequence"),
       [Event BrokerPost true; Event PlaywrightStart true; Event Connect true;
        Event PlaywrightStop true])
  ∧ get_web_scraped_data
      (failing_at NewPage (Exception "Target closed") (calm r1_page)) "1234-001-002"
    = (Raise (Exception "Target closed"),
       [Event BrokerPost true; Event PlaywrightStart true; Event Connect true;
        Event NewContext true; Event NewPage false; Event PlaywrightStop true]).
Proof. split_and!; by vm_compute. Qed.

(** * Further properties *)

(** ** The report link *)

Module LinkFacts.

Import Text.

Lemma remove_char_chars (c : ascii) (s : string) :
  list_ascii_of_string (remove_char c s)
  = filter (λ d, d ≠ c) (list_ascii_of_string s).
Proof.
  induction s as [|d s IH]; [done |]. simpl.
  rewrite filter_cons. destruct (Ascii.eqb c d) eqn:Hcd.
  - apply Ascii.eqb_eq in Hcd as ->. by rewrite decide_False by (intros H; by apply H).
  - apply Ascii.eqb_neq in Hcd. rewrite decide_True by congruence. simpl. by rewrite IH.
Qed.

Lemma contains_char_elem (c : ascii) (s : string) :
  contains (String c EmptyString) s = true → c ∈ list_ascii_of_string s.
Proof.
  induction s as [|d s IH]; [done |].
  rewrite TextFacts.contains_String. simpl.
  destruct (ascii_dec c d) as [-> | Hne]; simpl.
  - intros _. apply list_elem_of_here.
  - intros H. apply list_elem_of_further, IH. by destruct s.
Qed.

Lemma remove_char_gone (c : ascii) (s : string) :
  contains (String c EmptyString) (remove_char c s) = false.
Proof.
  destruct (contains _ _) eqn:H; [| done].
  apply contains_char_elem in H. rewrite remove_char_chars in H.
  apply list_elem_of_filter in H as [H _]. done.
Qed.

Lemma remove_char_unchanged (c : ascii) (s : string) :
  c ∉ list_ascii_of_string s → remove_char c s = s.
Proof.
  induction s as [|d s IH]; [done |]. simpl. intros H.
  apply not_elem_of_cons in H as [Hcd H].
  apply Ascii.eqb_neq in Hcd. rewrite Hcd. by rewrite IH.
Qed.

End LinkFacts.

(** ** More on the extractor *)

Module RecordFacts.

Section WithSoup.

Variable soup : node.

(** A record comes from a table that was found and two steps that
    returned. *)
Lemma extract_fields_ret (apn href : string) (d : gmap string value) :
  extract_fields soup apn href = Ret d →
  ∃ table zones flood,
    find_table soup = Some table
    ∧ extract_zones soup table = Ret zones
    ∧ extract_flood soup table = Ret flood
    ∧ d = zoning_record apn href zones flood.
Proof.
  unfold extract_fields. intros H.
  destruct (find_table soup) as [table|]; [| done].
  destruct (extract_zones soup table) as [zones | e] eqn:Hz; [| done].
  destruct (extract_flood soup table) as [flood | e] eqn:Hf; [| done].
  injection H as <-. by exists table, zones, flood.
Qed.

Lemma zoning_record_fields (apn href : string) (zones : list string) (flood : string) :
  zoning_record apn href zones flood !! "apn" = Some (VStr apn)
  ∧ zoning_record apn href zones flood !! "link" = Some (VStr href)
  ∧ zoning_record apn href zones flood !! "zones" = Some (VList zones)
  ∧ zoning_record apn href zones flood !! "flood_hazard_zone" = Some (VStr flood)
  ∧ zoning_record apn href zones flood !! "error" = None
  ∧ zoning_record apn href zones flood !! "source" = None.
Proof. unfold zoning_record. split_and!; by simplify_map_eq. Qed.

(** The walk over rows that are all there. *)
Lemma walk_rows_following (rows : list path) (row : path) (zones : list string) :
  following_rows soup row rows →
  walk_rows soup (length rows) (Some row) zones
  = Ret (zones ++ omap (first_cell_text soup) rows).
Proof.
  revert row zones. induction rows as [|row' rows IH]; intros row zones Hrows.
  - simpl. by rewrite app_nil_r.
  - destruct Hrows as [Hnext Hrows]. simpl. rewrite Hnext.
    rewrite (IH row' _ Hrows). unfold first_cell_text at 2.
    destruct (find soup "td" row'); [| done]. by rewrite <- app_assoc.
Qed.

Lemma walk_rows_length (k : nat) (row : option path) (zones zones' : list string) :
  walk_rows soup k row zones = Ret zones' →
  (length zones ≤ length zones' ≤ length zones + k)%nat.
Proof.
  revert row zones. induction k as [|k IH]; intros row zones H; simpl in H.
  - injection H as <-. lia.
  - destruct row as [row|]; [| done]. apply IH in H.
    destruct (find_next_sibling soup "tr" row) as [row'|]; [| lia].
    destruct (find soup "td" row'); [| lia].
    rewrite length_app in H. simpl in H. lia.
Qed.

End WithSoup.

End RecordFacts.

(** X1. The link of the record. When the route reaches the report, the
    link of the returned record is the href of the report link with every
    space removed: no space is left in it, its other characters are kept in
    their order, and an href without a space is returned as it is. *)
Theorem record_link_is_cleaned_href (w : world) (apn href : string) (soup : node)
    (d : gmap string value) :
  report_loaded w href soup →
  outcome (navigate_and_extract w apn) = Ret d →
  d !! "link" = Some (VStr (Text.remove_char " " href))
  ∧ Text.contains " " (Text.remove_char " " href) = false
  ∧ list_ascii_of_string (Text.remove_char " " href)
    = filter (λ c, c ≠ " "%char) (list_ascii_of_string href)
  ∧ (" "%char ∉ list_ascii_of_string href → Text.remove_char " " href = href).
Proof.
  intros Hloaded Hret.
  rewrite (IdxFacts.navigate_loaded w apn href soup Hloaded) in Hret.
  apply RecordFacts.extract_fields_ret in Hret as (table & zones & flood & _ & _ & _ & ->).
  split_and!.
  - apply RecordFacts.zoning_record_fields.
  - apply LinkFacts.remove_char_gone.
  - apply LinkFacts.remove_char_chars.
  - apply LinkFacts.remove_char_unchanged.
Qed.

Lemma record_link_is_cleaned_href_witness :
  zoning_record "1234-001-002" "https://x.com/ParcelProfileDetail2" ["R1"] "Not Found"
    !! "link"
  = Some (VStr (Text.remove_char " " "https://x.com/Parcel Profile Detail2")).
Proof.
  apply (record_link_is_cleaned_href (calm r1_page) "1234-001-002"
           "https://x.com/Parcel Profile Detail2" r1_page).
  - constructor; try reflexivity.
    + repeat constructor.
    + eexists. split; reflexivity.
    + intros e. discriminate.
    + intros e. discriminate.
  - reflexivity.
Defined.

(** ** The zone list, in general *)

(** X2. The walk in general. With the label cell spanning [rowspan] rows
    and the [rowspan - 1] rows after the label's own all there, the zones
    are the text of the last cell of the label's row followed by the text of
    the first cell of each following row, in document order; a following
    row without a cell adds nothing. *)
Theorem zones_follow_rows (soup : node) (table zone_cell row cell : path)
    (rowspan : Z) (rows : list path) :
  find_zone_cell soup table = Some zone_cell →
  rowspan_of (node_at soup zone_cell) = Ret rowspan →
  find_parent soup "tr" zone_cell = Some row →
  last (find_all soup "td" row) = Some cell →
  following_rows soup row rows →
  length rows = Z.to_nat (rowspan - 1) →
  extract_zones soup table
  = Ret (get_text_strip (node_at soup cell) :: omap (first_cell_text soup) rows).
Proof.
  intros Hcell Hspan Hrow Hlast Hrows Hlen. unfold extract_zones.
  rewrite Hcell, Hspan. simpl. rewrite Hrow, Hlast, <- Hlen.
  by rewrite (RecordFacts.walk_rows_following soup rows row _ Hrows).
Qed.

Lemma zones_follow_rows_witness :
  extract_zones three_zone_page table_path
  = Ret (get_text_strip (node_at three_zone_page [0; 0; 0; 1; 1]%nat)
         :: omap (first_cell_text three_zone_page)
              [[0; 0; 0; 3]; [0; 0; 0; 5]]%nat).
Proof.
  apply (zones_follow_rows three_zone_page table_path
           [0; 0; 0; 1; 0]%nat [0; 0; 0; 1]%nat [0; 0; 0; 1; 1]%nat 3).
  - reflexivity.
  - reflexivity.
  - reflexivity.
  - reflexivity.
  - simpl. split_and!; reflexivity.
  - reflexivity.
Defined.

(** X3. How many zones. When a label cell is found and the zone list is
    returned, it holds at least one zone and at most as many as the
    [rowspan] of the label cell; a [rowspan] of 1 or less, 0 and negative
    numbers included, gives exactly the last cell of the label's row. *)
Theorem zone_count_bounds (soup : node) (table zone_cell : path) (rowspan : Z)
    (zones : list string) :
  find_zone_cell soup table = Some zone_cell →
  rowspan_of (node_at soup zone_cell) = Ret rowspan →
  extract_zones soup table = Ret zones →
  (1 ≤ length zones ≤ Z.to_nat (Z.max 1 rowspan))%nat
  ∧ ((rowspan ≤ 1)%Z →
     ∃ row cell, find_parent soup "tr" zone_cell = Some row
                 ∧ last (find_all soup "td" row) = Some cell
                 ∧ zones = [get_text_strip (node_at soup cell)]).
Proof.
  intros Hcell Hspan. unfold extract_zones. rewrite Hcell, Hspan. simpl.
  destruct (find_parent soup "tr" zone_cell) as [row|] eqn:Hrow; [| done].
  destruct (last (find_all soup "td" row)) as [cell|] eqn:Hlast; [| done].
  intros Hwalk. split.
  - apply RecordFacts.walk_rows_length in Hwalk. simpl in Hwalk. lia.
  - intros Hle. exists row, cell. split_and!; [done | done |].
    replace (Z.to_nat (rowspan - 1)) with 0%nat in Hwalk by lia.
    simpl in Hwalk. by injection Hwalk as <-.
Qed.

Lemma zone_count_bounds_witness :
  (1 ≤ length ["R1"] ≤ Z.to_nat (Z.max 1 0))%nat
  ∧ extract_zones zero_rowspan_page table_path = Ret ["R1"].
Proof.
  assert (extract_zones zero_rowspan_page table_path = Ret ["R1"]) as Hzones
    by reflexivity.
  split; [| exact Hzones].
  apply (zone_count_bounds zero_rowspan_page table_path [0; 0; 0; 0; 0]%nat 0 ["R1"]).
  - reflexivity.
  - reflexivity.
  - exact Hzones.
Defined.

(** ** Errors of the extractor, seen from the scraper *)

Module ScrapeFacts.

Import EffectFacts.

Section WithWorld.

Variable w : world.

(** The full run after an [Exception] in the [try] block. *)
Lemma scrape_failure_run (apn : string) (url : json) (e : exn) :
  page_opened w →
  outcome (navigate_and_extract w apn) = Raise e →
  is_Exception e = true →
  effect_outcome w Close = Ret () →
  effect_outcome w PlaywrightStop = Ret () →
  scrape_and_extract_zones w apn url
  = (match effect_outcome w Screenshot with
     | Ret _ => Ret (error_dict (str e))
     | Raise e' => Raise e'
     end,
     [Event PlaywrightStart true; Event Connect true;
      Event NewContext true; Event NewPage true]
     ++ trace (navigate_and_extract w apn)
     ++ [Event Screenshot (is_ret (effect_outcome w Screenshot));
         Event Close true; Event PlaywrightStop true]).
Proof.
  intros Hopen Hnav He Hclose Hstop.
  rewrite (IdxFacts.scrape_opened w apn url Hopen).
  rewrite (IdxFacts.guarded_route_failure w apn e Hnav He), Hclose, Hstop.
  rewrite trace_pair, outcome_pair. cbn [is_ret]. f_equal. f_equal.
  by rewrite <- app_assoc.
Qed.

(** What the extractor raises on the report comes back as the error
    dictionary of its message. *)
Lemma scrape_extractor_error (apn href : string) (url : json) (soup : node) (e : exn) :
  page_opened w →
  report_loaded w href soup →
  extract_fields soup apn (Text.remove_char " " href) = Raise e →
  effect_outcome w Screenshot = Ret () →
  effect_outcome w Close = Ret () →
  effect_outcome w PlaywrightStop = Ret () →
  outcome (scrape_and_extract_zones w apn url) = Ret (error_dict (str e))
  ∧ calls_to Screenshot (trace (scrape_and_extract_zones w apn url)) = 1%nat
  ∧ calls_to Close (trace (scrape_and_extract_zones w apn url)) = 1%nat.
Proof.
  intros Hopen Hloaded Hraise Hshot Hclose Hstop.
  assert (outcome (navigate_and_extract w apn) = Raise e) as Hnav.
  { by rewrite (IdxFacts.navigate_loaded w apn href soup Hloaded). }
  assert (is_Exception e = true) as He
    by (by apply ExtractorFacts.extract_fields_raises in Hraise).
  rewrite (scrape_failure_run apn url e Hopen Hnav He Hclose Hstop), Hshot.
  rewrite outcome_pair, trace_pair, !calls_to_app.
  rewrite (calls_to_emits _ Screenshot _ eq_refl (IdxFacts.navigate_emits w apn)).
  rewrite (calls_to_emits _ Close _ eq_refl (IdxFacts.navigate_emits w apn)).
  done.
Qed.

End WithWorld.

Lemma calm_opened (soup : node) : page_opened (calm soup).
Proof. constructor; try reflexivity. simpl. discriminate. Qed.

Lemma calm_loaded (soup : node) :
  report_loaded (calm soup) "https://x.com/Parcel Profile Detail2" soup.
Proof.
  constructor; try reflexivity.
  - repeat constructor.
  - eexists. split; reflexivity.
  - intros e. discriminate.
  - intros e. discriminate.
Qed.

End ScrapeFacts.



(** X5. No table. When the report page has no [table] with id "basic", the
    extractor raises, and a scraper that reached the report returns the
    error dictionary "Table with id 'basic' not found", after one
    screenshot and one close. *)
Theorem missing_table_is_an_error (w : world) (apn href : string) (url : json)
    (soup : node) :
  find_table soup = None →
  page_opened w →
  report_loaded w href soup →
  effect_outcome w Screenshot = Ret () →
  effect_outcome w Close = Ret () →
  effect_outcome w PlaywrightStop = Ret () →
  outcome (scrape_and_extract_zones w apn url)
  = Ret (error_dict "Table with id 'basic' not found")
  ∧ calls_to Screenshot (trace (scrape_and_extract_zones w apn url)) = 1%nat
  ∧ calls_to Close (trace (scrape_and_extract_zones w apn url)) = 1%nat.
Proof.
  intros Htable Hopen Hloaded Hshot Hclose Hstop.
  apply (ScrapeFacts.scrape_extractor_error w apn href url soup
           (Exception "Table with id 'basic' not found")); try done.
  unfold extract_fields. by rewrite Htable.
Qed.

Lemma missing_table_is_an_error_witness :
  outcome (scrape_and_extract_zones (calm no_table_page) "1234-001-002"
             (JStr "wss://connect"))
  = Ret (error_dict "Table with id 'basic' not found").
Proof.
  apply (missing_table_is_an_error (calm no_table_page) "1234-001-002"
           "https://x.com/Parcel Profile Detail2" (JStr "wss://connect") no_table_page);
    try reflexivity.
  - apply ScrapeFacts.calm_opened.
  - apply ScrapeFacts.calm_loaded.
Defined.

(** ** Stripped text *)

Module TrimFacts.

Import Text TextFacts.

(** The string is empty or starts with a character that is no blank. *)
Local Abbreviation head_clean s :=
  (s = EmptyString ∨ ∃ c r, s = String c r ∧ isspace c = false).

Lemma lstrip_head (s : string) : head_clean (lstrip s).
Proof.
  induction s as [|c s IH]; [by left |]. simpl.
  destruct (isspace c) eqn:Hc; [done |]. right. by exists c, s.
Qed.

Lemma lstrip_clean (s : string) : head_clean s → lstrip s = s.
Proof. intros [-> | (c & r & -> & Hc)]; [done |]. simpl. by rewrite Hc. Qed.

Lemma rstrip_head (s : string) : head_clean s → head_clean (rstrip s).
Proof.
  intros [-> | (c & r & -> & Hc)]; [by left |]. right. simpl.
  destruct (rstrip r) as [|d r'].
  - rewrite Hc. by exists c, EmptyString.
  - by exists c, (String d r').
Qed.

Lemma rstrip_rstrip (s : string) : rstrip (rstrip s) = rstrip s.
Proof.
  induction s as [|c s IH]; [done |]. simpl.
  destruct (rstrip s) as [|d r] eqn:Hr.
  - destruct (isspace c) eqn:Hc; [done |]. simpl. by rewrite Hc.
  - change (rstrip (String c (String d r)))
      with (match rstrip (String d r) with
            | EmptyString => if isspace c then EmptyString else String c EmptyString
            | r' => String c r'
            end).
    by rewrite IH.
Qed.

Lemma rstrip_app (a b : string) :
  rstrip b ≠ EmptyString → rstrip (a +:+ b) = a +:+ rstrip b.
Proof.
  intros Hb. induction a as [|c a IH]; norm_append; [done |].
  simpl. rewrite IH. destruct a as [|d a]; norm_append; [| done].
  by destruct (rstrip b).
Qed.

(** [strip] leaves what it returns unchanged when applied again. *)
Lemma strip_strip (s : string) : strip (strip s) = strip s.
Proof.
  unfold strip at 1.
  rewrite (lstrip_clean (strip s)) by apply rstrip_head, lstrip_head.
  apply rstrip_rstrip.
Qed.

Lemma strip_fixed (s : string) : strip s = s ↔ lstrip s = s ∧ rstrip s = s.
Proof.
  split.
  - intros H. assert (lstrip s = s) as Hl.
    { apply lstrip_clean. rewrite <- H. apply rstrip_head, lstrip_head. }
    split; [done |]. unfold strip in H. by rewrite Hl in H.
  - intros [Hl Hr]. unfold strip. by rewrite Hl.
Qed.

Lemma strip_fixed_app (a b : string) :
  strip a = a → strip b = b → strip (a +:+ b) = a +:+ b.
Proof.
  rewrite !strip_fixed. intros [Hla Hra] [Hlb Hrb]. split.
  - apply lstrip_clean. pose proof (lstrip_head a) as Ha. rewrite Hla in Ha.
    destruct Ha as [-> | (c & r & -> & Hc)]; norm_append.
    + pose proof (lstrip_head b) as Hb. by rewrite Hlb in Hb.
    + right. by exists c, (r +:+ b).
  - destruct b as [|d b]; [by rewrite append_empty_r |].
    rewrite rstrip_app; rewrite Hrb; done.
Qed.

Lemma strip_fixed_join (l : list string) :
  Forall (λ s, strip s = s) l → strip (join l) = join l.
Proof.
  induction 1 as [|x xs Hx Hxs IH]; [done |].
  rewrite join_cons. by apply strip_fixed_app.
Qed.

(** The text [get_text(strip=True)] returns has no blank at either end. *)
Lemma get_text_strip_trimmed (n : node) : strip (get_text_strip n) = get_text_strip n.
Proof.
  unfold get_text_strip, stripped_strings. apply strip_fixed_join.
  apply Forall_forall. intros s Hs.
  apply list_elem_of_filter in Hs as [_ Hs].
  apply list_elem_of_fmap in Hs as (t & -> & _). apply strip_strip.
Qed.

Lemma walk_rows_trimmed (soup : node) (k : nat) (row : option path)
    (zones zones' : list string) :
  Forall (λ z, strip z = z) zones →
  walk_rows soup k row zones = Ret zones' →
  Forall (λ z, strip z = z) zones'.
Proof.
  revert row zones. induction k as [|k IH]; intros row zones Hzones H; simpl in H.
  - by injection H as <-.
  - destruct row as [row|]; [| done]. eapply IH; [| exact H].
    destruct (find_next_sibling soup "tr" row) as [row'|]; [| done].
    destruct (find soup "td" row'); [| done].
    apply Forall_app. split; [done |]. repeat constructor. apply get_text_strip_trimmed.
Qed.

End TrimFacts.

(** X6. Trimmed values. Every zone of a returned zone list and a returned
    flood hazard zone are stripped: stripping them again changes nothing,
    so none starts or ends with a blank. *)
Theorem outputs_are_trimmed (soup : node) (table : path) (zones : list string)
    (flood : string) :
  extract_zones soup table = Ret zones →
  extract_flood soup table = Ret flood →
  Forall (λ zone, Text.strip zone = zone) zones ∧ Text.strip flood = flood.
Proof.
  intros Hzones Hflood. split.
  - unfold extract_zones in Hzones.
    destruct (find_zone_cell soup table) as [zone_cell|]; [| by injection Hzones as <-].
    destruct (rowspan_of (node_at soup zone_cell)) as [rowspan | e]; [| done].
    simpl in Hzones.
    destruct (find_parent soup "tr" zone_cell) as [row|]; [| done].
    destruct (last (find_all soup "td" row)) as [cell|]; [| done].
    eapply TrimFacts.walk_rows_trimmed; [| exact Hzones].
    repeat constructor. apply TrimFacts.get_text_strip_trimmed.
  - unfold extract_flood in Hflood.
    destruct (scan_flood_cell soup _) as [c|]; [| by injection Hflood as <-].
    destruct (find_next_sibling soup "td" c) as [cell|]; [| done].
    injection Hflood as <-. apply TrimFacts.get_text_strip_trimmed.
Qed.

Lemma outputs_are_trimmed_witness :
  extract_flood flood_page table_path = Ret "X"
  ∧ Forall (λ zone, Text.strip zone = zone) ["R1"] ∧ Text.strip "X" = "X".
Proof.
  split; [reflexivity |].
  apply (outputs_are_trimmed flood_page table_path ["R1"] "X"); reflexivity.
Defined.

(** ** The local record *)

Module RowFacts.

Lemma foldl_insert_other (l : list (string * sqlval)) (d : gmap string sqlval)
    (k : string) :
  k ∉ l.*1 → foldl (λ d kv, <[kv.1 := kv.2]> d) d l !! k = d !! k.
Proof.
  revert d. induction l as [|[k' v'] l IH]; intros d Hk; [done |].
  rewrite fmap_cons in Hk. apply not_elem_of_cons in Hk as [Hne Hk]. simpl in *.
  rewrite (IH _ Hk). by rewrite lookup_insert_ne.
Qed.

Lemma foldl_insert_lookup (l : list (string * sqlval)) (d : gmap string sqlval)
    (k : string) (v : sqlval) :
  NoDup l.*1 → (k, v) ∈ l → foldl (λ d kv, <[kv.1 := kv.2]> d) d l !! k = Some v.
Proof.
  revert d. induction l as [|[k' v'] l IH]; intros d Hnodup Hin.
  - by apply elem_of_nil in Hin.
  - rewrite fmap_cons in Hnodup. apply NoDup_cons in Hnodup as [Hfresh Hnodup].
    apply elem_of_cons in Hin as [[= -> ->] | Hin]; simpl in *.
    + rewrite (foldl_insert_other l _ k' Hfresh). apply lookup_insert_eq.
    + by apply IH.
Qed.

Lemma fst_zip_take {A B} (l : list A) (k : list B) : (zip l k).*1 = take (length k) l.
Proof.
  revert k. induction l as [|x l IH]; intros [|y k]; simpl; try done.
  by rewrite IH.
Qed.

Lemma columns_NoDup : NoDup columns.
Proof. apply (bool_decide_unpack (NoDup columns)). by vm_compute. Qed.

Lemma row_keys_NoDup (row : list sqlval) : NoDup (zip columns row).*1.
Proof.
  rewrite fst_zip_take. eapply sublist_NoDup; [apply columns_NoDup | apply sublist_take].
Qed.

End RowFacts.

(** X7. The record of a row. The dictionary [parcel_local_search] returns
    for a row maps the name of each column of the query to the value at the
    same position of the row, and holds no key but the names of the columns
    the row has a value for. *)
Theorem local_record_pairs_columns (w : world) (apn : string) (row : list sqlval)
    (d : gmap string sqlval) :
  fetchone_outcome w = Ret (Some row) →
  outcome (parcel_local_search w apn) = Ret (Some d) →
  (∀ i column v, columns !! i = Some column → row !! i = Some v →
                 d !! column = Some v)
  ∧ (∀ key, key ∉ take (length row) columns → d !! key = None).
Proof.
  intros Hrow. unfold parcel_local_search. rewrite Hrow.
  destruct row as [|v0 row]; [done |]. simpl. intros [= <-]. split.
  - intros i column v Hcol Hval.
    apply RowFacts.foldl_insert_lookup; [apply RowFacts.row_keys_NoDup |].
    apply (list_elem_of_lookup_2 _ i). apply lookup_zip_with_Some. by exists column, v.
  - intros key Hkey. unfold dict_of_row.
    rewrite RowFacts.foldl_insert_other; [done |]. by rewrite RowFacts.fst_zip_take.
Qed.

Lemma local_record_pairs_columns_witness :
  dict_of_row [SqlText "1234-001-002"; SqlText "1 Main St"] !! "SitusFullA"
  = Some (SqlText "1 Main St").
Proof.
  destruct (local_record_pairs_columns
              (with_row (Some [SqlText "1234-001-002"; SqlText "1 Main St"])
                 (calm r1_page))
              "1234-001-002" [SqlText "1234-001-002"; SqlText "1 Main St"]
              (dict_of_row [SqlText "1234-001-002"; SqlText "1 Main St"]))
    as [Hpairs _].
  - reflexivity.
  - reflexivity.
  - apply (Hpairs 1%nat); reflexivity.
Defined.

(** ** The first tier *)

Module TierFacts.

Import EffectFacts.

Section WithWorld.

Variable w : world.

Lemma retrieve_context_run :
  (∀ e, query_outcome w = Raise e → is_Exception e = true) →
  retrieve_context w
  = (Ret (context_text w), [Event ChromaQuery (is_ret (query_outcome w))]).
Proof.
  intros Hexn. unfold retrieve_context, context_text.
  destruct (query_outcome w) as [[[|documents0 rest]|]|e]; try done.
  unfold call, try_except. rewrite bind_raise. by rewrite (Hexn e eq_refl).
Qed.

Lemma local_hit_run (apn : string) (d : gmap string sqlval) :
  outcome (parcel_local_search w apn) = Ret (Some d) →
  parcel_local_search w apn = (Ret (Some d), [Event SqlFetchone true]).
Proof.
  unfold parcel_local_search. destruct (fetchone_outcome w) as [[[|v row]|]|e]; try done.
  simpl. by intros [= <-].
Qed.

End WithWorld.

End TierFacts.

(** X8. The answer of the first tier. On a local hit, when the generation
    step returns and a failure of the vector store, if any, is an
    [Exception], the endpoint returns the record, the context, the
    explanation and the tag "database" after one call to each of the three
    services; the context is the documents of the first result list joined
    by newlines, "No relevant documents found." for an empty answer and
    "Error retrieving context." when the vector store failed: that failure
    does not fail the request. *)
Theorem local_hit_response (w : world) (apn explanation : string)
    (d : gmap string sqlval) :
  outcome (parcel_local_search w apn) = Ret (Some d) →
  (∀ e, query_outcome w = Raise e → is_Exception e = true) →
  generate_outcome w = Ret explanation →
  get_parcel_details_and_explanation w apn
  = (Ret (<["parcel_data" := VRow d]>
          (<["context" := VStr (context_text w)]>
           (<["explanation" := VStr explanation]>
            (<["source" := VStr "database"]> ∅)))),
     [Event SqlFetchone true; Event ChromaQuery (is_ret (query_outcome w));
      Event Generate true]).
Proof.
  intros Hhit Hquery Hgen. unfold get_parcel_details_and_explanation.
  rewrite (TierFacts.local_hit_run w apn d Hhit), EffectFacts.bind_ret.
  rewrite (IdxFacts.parcel_local_search_truthy w apn d Hhit).
  rewrite (TierFacts.retrieve_context_run w Hquery), EffectFacts.bind_ret.
  unfold call_gemini_flash. by rewrite Hgen.
Qed.

Lemma local_hit_response_witness :
  outcome (get_parcel_details_and_explanation
             (failing_at ChromaQuery (Exception "store down")
                (with_row (Some [SqlText "1234-001-002"; SqlText "1 Main St"])
                   (calm r1_page)))
             "1234-001-002")
  = Ret (<["parcel_data" :=
             VRow (dict_of_row [SqlText "1234-001-002"; SqlText "1 Main St"])]>
         (<["context" := VStr "Error retrieving context."]>
          (<["explanation" := VStr "explanation"]>
           (<["source" := VStr "database"]> ∅)))).
Proof.
  rewrite (local_hit_response
             (failing_at ChromaQuery (Exception "store down")
                (with_row (Some [SqlText "1234-001-002"; SqlText "1 Main St"])
                   (calm r1_page)))
             "1234-001-002" "explanation"
             (dict_of_row [SqlText "1234-001-002"; SqlText "1 Main St"])).
  - reflexivity.
  - reflexivity.
  - intros e [= <-]. reflexivity.
  - reflexivity.
Defined.

(** X9. A failing generation step. On a local hit, an error of the
    generation step is raised by the endpoint after the three calls of the
    first tier: no response is returned and the scraper is not tried in its
    place. *)
Theorem generation_failure_is_raised (w : world) (apn : string)
    (d : gmap string sqlval) (e : exn) :
  outcome (parcel_local_search w apn) = Ret (Some d) →
  (∀ e', query_outcome w = Raise e' → is_Exception e' = true) →
  generate_outcome w = Raise e →
  get_parcel_details_and_explanation w apn
  = (Raise e,
     [Event SqlFetchone true; Event ChromaQuery (is_ret (query_outcome w));
      Event Generate false])
  ∧ ¬ fallback_attempted (trace (get_parcel_details_and_explanation w apn)).
Proof.
  intros Hhit Hquery Hgen.
  assert (get_parcel_details_and_explanation w apn
          = (Raise e,
             [Event SqlFetchone true; Event ChromaQuery (is_ret (query_outcome w));
              Event Generate false])) as Hrun.
  { unfold get_parcel_details_and_explanation.
    rewrite (TierFacts.local_hit_run w apn d Hhit), EffectFacts.bind_ret.
    rewrite (IdxFacts.parcel_local_search_truthy w apn d Hhit).
    rewrite (TierFacts.retrieve_context_run w Hquery), EffectFacts.bind_ret.
    unfold call_gemini_flash. by rewrite Hgen. }
  split; [done |]. rewrite Hrun, EffectFacts.trace_pair. unfold fallback_attempted.
  rewrite !Exists_cons, Exists_nil. simpl. intros [H | [H | [H | []]]]; discriminate H.
Qed.

Lemma generation_failure_is_raised_witness :
  outcome (get_parcel_details_and_explanation
             (failing_at Generate (Exception "rate limited")
                (with_row (Some [SqlText "1234-001-002"; SqlText "1 Main St"])
                   (calm r1_page)))
             "1234-001-002")
  = Raise (Exception "rate limited").
Proof.
  destruct (generation_failure_is_raised
              (failing_at Generate (Exception "rate limited")
                 (with_row (Some [SqlText "1234-001-002"; SqlText "1 Main St"])
                    (calm r1_page)))
              "1234-001-002"
              (dict_of_row [SqlText "1234-001-002"; SqlText "1 Main St"])
              (Exception "rate limited")) as [Hrun _].
  - reflexivity.
  - intros e'. discriminate.
  - reflexivity.
  - rewrite Hrun. reflexivity.
Defined.

(** ** The user agent and the session *)

(** X10. The user agent. With a list of user agents that is not empty,
    [get_random_user_agent] returns one of its entries, whatever the draw;
    with the empty list it raises the [IndexError] of [random.choice]. *)
Theorem user_agent_is_listed (w : world) :
  (user_agents w ≠ [] →
   ∃ ua, get_random_user_agent w = Ret ua ∧ ua ∈ user_agents w)
  ∧ (user_agents w = [] →
     get_random_user_agent w = Raise (IndexError "Cannot choose from an empty sequence")).
Proof.
  unfold get_random_user_agent. split.
  - intros Hne. destruct (user_agents w) as [|ua uas]; [done |].
    eexists. split; [reflexivity |].
    apply list_elem_of_In, nth_In, Nat.mod_upper_bound. simpl. lia.
  - by intros ->.
Qed.

Lemma user_agent_is_listed_witness :
  ∃ ua, get_random_user_agent (calm r1_page) = Ret ua ∧ ua ∈ user_agents (calm r1_page).
Proof.
  destruct (user_agent_is_listed (calm r1_page)) as [Hlisted _].
  apply Hlisted. simpl. discriminate.
Defined.

(** X11. The empty list of user agents. With the list of user agents
    empty, as in the published file, the fallback never returns a zoning
    record: whatever it returns is the dictionary of the failed session, it
    raises otherwise, and it calls no site of the route: only the broker,
    the start of the driver, the connection and the stop of the driver. *)
Theorem empty_agent_list_blocks_scraper (w : world) (apn : string) :
  user_agents w = [] →
  (∀ d, outcome (get_web_scraped_data w apn) = Ret d →
        d = error_dict "Failed to create Browserbase session")
  ∧ emits (λ s, bool_decide (s ∈ [BrokerPost; PlaywrightStart; Connect; PlaywrightStop]))
      (get_web_scraped_data w apn).
Proof.
  intros Hagents.
  assert (∀ url,
            (∀ d, outcome (scrape_and_extract_zones w apn url) ≠ Ret d)
            ∧ emits (λ s, bool_decide (s ∈ [BrokerPost; PlaywrightStart; Connect;
                                            PlaywrightStop]))
                (scrape_and_extract_zones w apn url)) as Hscrape.
  { intros url. unfold scrape_and_extract_zones, get_random_user_agent.
    rewrite Hagents.
    destruct (effect_outcome w PlaywrightStart) as [[] | e0];
      [| split; [done | by repeat constructor]].
    destruct (effect_outcome w Connect) as [[] | e1];
      destruct (effect_outcome w PlaywrightStop) as [[] | e2];
      (split; [done | by repeat constructor]). }
  unfold get_web_scraped_data.
  destruct (create_browserbase_session w) as [[session | e] t] eqn:Hsession.
  2: { split; [done |]. unfold emits. rewrite EffectFacts.bind_raise, EffectFacts.trace_pair.
       revert Hsession. unfold create_browserbase_session.
       destruct (post_outcome w) as [resp | e']; simpl.
       - destruct (bool_decide _); simpl; intros [= _ <-]; by repeat constructor.
       - intros [= _ <-]. by repeat constructor. }
  assert (t = [Event BrokerPost true]) as ->.
  { revert Hsession. unfold create_browserbase_session.
    destruct (post_outcome w) as [resp | e']; simpl; [| done].
    by destruct (bool_decide _); simpl; intros [= _ <-]. }
  rewrite EffectFacts.bind_ret. destruct (truthy session); simpl.
  - destruct (subscript session "connectUrl") as [url | e]; simpl.
    + destruct (Hscrape url) as [Hnever Hsites]. split.
      * intros d Hd. by destruct (Hnever d).
      * unfold emits in *. simpl. by constructor.
    + split; [done | by repeat constructor].
  - split; [by intros d [= <-] | by repeat constructor].
Qed.

Lemma empty_agent_list_blocks_scraper_witness :
  emits (λ s, bool_decide (s ∈ [BrokerPost; PlaywrightStart; Connect; PlaywrightStop]))
    (get_web_scraped_data (with_user_agents [] (calm r1_page)) "1234-001-002").
Proof.
  apply (empty_agent_list_blocks_scraper (with_user_agents [] (calm r1_page))
           "1234-001-002").
  reflexivity.
Defined.

(** X12. A session without a connect URL. When the broker accepts the
    request and its body decodes to a dictionary that is not empty and has
    no "connectUrl" key, the orchestrator raises [KeyError] for that key
    right after the request: no browser is opened and no dictionary is
    returned. *)
Theorem missing_connect_url_is_raised (w : world) (apn : string) (resp : response)
    (session : gmap string json) :
  post_outcome w = Ret resp →
  status_code resp = 200 ∨ status_code resp = 201 →
  json_body resp = Ret (JDict session) →
  session ≠ ∅ →
  session !! "connectUrl" = None →
  get_web_scraped_data w apn = (Raise (KeyError "connectUrl"), [Event BrokerPost true])
  ∧ str (KeyError "connectUrl") = "'connectUrl'".
Proof.
  intros Hpost Hstatus Hbody Hne Hkey. split; [| reflexivity].
  unfold get_web_scraped_data.
  rewrite (IdxFacts.create_session_accepted w resp Hpost Hstatus), Hbody.
  rewrite EffectFacts.bind_ret. cbn [truthy]. rewrite bool_decide_true by done.
  cbn [negb]. unfold subscript. by rewrite Hkey.
Qed.

Lemma missing_connect_url_is_raised_witness :
  get_web_scraped_data
    (with_response (Response 200 (Ret (JDict {["id" := JStr "s-1"]}))) (calm r1_page))
    "1234-001-002"
  = (Raise (KeyError "connectUrl"), [Event BrokerPost true]).
Proof.
  apply (missing_connect_url_is_raised
           (with_response (Response 200 (Ret (JDict {["id" := JStr "s-1"]})))
              (calm r1_page))
           "1234-001-002"
           (Response 200 (Ret (JDict {["id" := JStr "s-1"]})))
           {["id" := JStr "s-1"]}).
  - reflexivity.
  - left. reflexivity.
  - reflexivity.
  - apply (bool_decide_unpack _). by vm_compute.
  - reflexivity.
Defined.

(** ** The fallback from end to end *)

Module FallbackFacts.

Import EffectFacts.

Section WithWorld.

Variable w : world.

(** With a session granted the orchestrator is the scraper after the
    request to the broker. *)
Lemma granted_run (apn : string) (url : json) :
  session_granted w url →
  get_web_scraped_data w apn
  = (outcome (scrape_and_extract_zones w apn url),
     Event BrokerPost true :: trace (scrape_and_extract_zones w apn url)).
Proof.
  intros [(resp & session & Hpost & Hstatus & Hbody & Htruthy & Hurl)].
  unfold get_web_scraped_data.
  rewrite (IdxFacts.create_session_accepted w resp Hpost Hstatus), Hbody.
  rewrite bind_ret, Htruthy. cbn [negb]. unfold pure. by rewrite Hurl, bind_ret.
Qed.

(** After a local miss the endpoint is the orchestrator with its answer
    tagged. *)
Lemma miss_run (apn : string) :
  outcome (parcel_local_search w apn) = Ret None →
  get_parcel_details_and_explanation w apn
  = (match outcome (get_web_scraped_data w apn) with
     | Ret web_data => Ret (<["source" := VStr "webscraper"]> web_data)
     | Raise e => Raise e
     end,
     Event SqlFetchone true :: trace (get_web_scraped_data w apn)).
Proof.
  intros Hmiss. unfold get_parcel_details_and_explanation.
  assert (parcel_local_search w apn = (Ret None, [Event SqlFetchone true])) as ->.
  { revert Hmiss. unfold parcel_local_search.
    by destruct (fetchone_outcome w) as [[[|v row]|]|e]. }
  rewrite bind_ret. cbn [if_truthy].
  destruct (get_web_scraped_data w apn) as [[web_data | e] t]; simpl; [| done].
  by rewrite app_nil_r.
Qed.

End WithWorld.

Lemma calm_granted (soup : node) : session_granted (calm soup) (JStr "wss://connect").
Proof.
  constructor. eexists _, _. split_and!; try reflexivity. right. reflexivity.
Qed.

End FallbackFacts.

(** X13. The fallback that succeeds. After a local miss, with a session
    granted, the page open, the report reached, the table found and both
    steps of the extractor returning, the endpoint returns the record with
    the requested identifier, the cleaned link, the zones and the flood
    hazard zone, tagged "webscraper": five keys and no more. No screenshot
    is taken and the browser is closed once. *)
Theorem fallback_returns_record (w : world) (apn href : string) (url : json)
    (soup : node) (table : path) (zones : list string) (flood : string) :
  outcome (parcel_local_search w apn) = Ret None →
  session_granted w url →
  page_opened w →
  report_loaded w href soup →
  find_table soup = Some table →
  extract_zones soup table = Ret zones →
  extract_flood soup table = Ret flood →
  effect_outcome w Close = Ret () →
  effect_outcome w PlaywrightStop = Ret () →
  outcome (get_parcel_details_and_explanation w apn)
  = Ret (<["source" := VStr "webscraper"]>
           (zoning_record apn (Text.remove_char " " href) zones flood))
  ∧ dom (<["source" := VStr "webscraper"]>
           (zoning_record apn (Text.remove_char " " href) zones flood))
    = ({["apn"; "link"; "zones"; "flood_hazard_zone"; "source"]} : gset string)
  ∧ calls_to Screenshot (trace (get_parcel_details_and_explanation w apn)) = 0%nat
  ∧ calls_to Close (trace (get_parcel_details_and_explanation w apn)) = 1%nat.
Proof.
  intros Hmiss Hgranted Hopen Hloaded Htable Hzones Hflood Hclose Hstop.
  assert (outcome (navigate_and_extract w apn)
          = Ret (zoning_record apn (Text.remove_char " " href) zones flood)) as Hnav.
  { rewrite (IdxFacts.navigate_loaded w apn href soup Hloaded).
    unfold extract_fields. by rewrite Htable, Hzones, Hflood. }
  rewrite (FallbackFacts.miss_run w apn Hmiss).
  rewrite (FallbackFacts.granted_run w apn url Hgranted).
  rewrite (IdxFacts.scrape_returns w apn url _ Hopen Hnav Hclose Hstop).
  rewrite !EffectFacts.outcome_pair, !EffectFacts.trace_pair. split_and!.
  - done.
  - unfold zoning_record. rewrite !dom_insert_L, dom_empty_L. set_solver.
  - change (calls_to Screenshot
              ([Event SqlFetchone true; Event BrokerPost true]
               ++ [Event PlaywrightStart true; Event Connect true;
                   Event NewContext true; Event NewPage true]
               ++ trace (navigate_and_extract w apn)
               ++ [Event Close true; Event PlaywrightStop true]) = 0%nat).
    rewrite !EffectFacts.calls_to_app.
    by rewrite (EffectFacts.calls_to_emits _ Screenshot _ eq_refl
                  (IdxFacts.navigate_emits w apn)).
  - change (calls_to Close
              ([Event SqlFetchone true; Event BrokerPost true]
               ++ [Event PlaywrightStart true; Event Connect true;
                   Event NewContext true; Event NewPage true]
               ++ trace (navigate_and_extract w apn)
               ++ [Event Close true; Event PlaywrightStop true]) = 1%nat).
    rewrite !EffectFacts.calls_to_app.
    by rewrite (EffectFacts.calls_to_emits _ Close _ eq_refl
                  (IdxFacts.navigate_emits w apn)).
Qed.

Lemma fallback_returns_record_witness :
  outcome (get_parcel_details_and_explanation (calm r1_page) "1234-001-002")
  = Ret (<["source" := VStr "webscraper"]>
           (zoning_record "1234-001-002" "https://x.com/ParcelProfileDetail2"
              ["R1"] "Not Found")).
Proof.
  apply (fallback_returns_record (calm r1_page) "1234-001-002"
           "https://x.com/Parcel Profile Detail2" (JStr "wss://connect")
           r1_page table_path ["R1"] "Not Found"); try reflexivity.
  - apply FallbackFacts.calm_granted.
  - apply ScrapeFacts.calm_opened.
  - apply ScrapeFacts.calm_loaded.
Defined.

(** ** The acknowledgment box *)

Module AckFacts.

Import EffectFacts.

(** Two computations that end alike, followed by continuations that end
    alike, end alike. *)
Lemma outcome_bind_ext {A B} (m1 m2 : M A) (f1 f2 : A → M B) :
  outcome m1 = outcome m2 →
  (∀ a, outcome (f1 a) = outcome (f2 a)) →
  outcome (m1 ≫= f1) = outcome (m2 ≫= f2).
Proof.
  intros Hm Hf. rewrite !outcome_bind, Hm. destruct (outcome m2); [apply Hf | done].
Qed.

(** The acknowledgment statement returns whenever its failures are
    [Exception]s. *)
Lemma acknowledgment_returns (wait click : result unit) :
  (∀ e, wait = Raise e → is_Exception e = true) →
  (∀ e, click = Raise e → is_Exception e = true) →
  outcome (try_except (call AckWait wait;; call AckClick click) (λ _, mret ()))
  = Ret ().
Proof.
  intros Hwait Hclick. destruct wait as [[] | e1]; simpl.
  - destruct click as [[] | e2]; simpl; [done |]. by rewrite (Hclick e2 eq_refl).
  - by rewrite (Hwait e1 eq_refl).
Qed.

End AckFacts.

(** X14. The acknowledgment is best effort. Whether waiting for the
    acknowledgment box and clicking it return or raise an [Exception], the
    [try] block ends the same way as when both return: a box that does not
    show up changes neither the record nor the error of the route. *)
Theorem acknowledgment_is_best_effort (w : world) (apn : string)
    (wait click : result unit) :
  (∀ e, wait = Raise e → is_Exception e = true) →
  (∀ e, click = Raise e → is_Exception e = true) →
  outcome (navigate_and_extract
             (with_effect AckWait wait (with_effect AckClick click w)) apn)
  = outcome (navigate_and_extract
               (with_effect AckWait (Ret ()) (with_effect AckClick (Ret ()) w)) apn).
Proof.
  intros Hwait Hclick. unfold navigate_and_extract. cbn [with_effect title_outcome
    effect_outcome frame_found href_outcome content_outcome].
  apply AckFacts.outcome_bind_ext; [reflexivity | intros _].
  apply AckFacts.outcome_bind_ext; [reflexivity | intros _].
  apply AckFacts.outcome_bind_ext; [reflexivity | intros title].
  destruct (Text.contains "Service unavailable" title); [reflexivity |].
  apply AckFacts.outcome_bind_ext; [reflexivity | intros _].
  apply AckFacts.outcome_bind_ext.
  { change (outcome (try_except (call AckWait wait;; call AckClick click)
                       (λ _, mret ()))
            = outcome (try_except (call AckWait (Ret ());; call AckClick (Ret ()))
                         (λ _, mret ()))).
    rewrite (AckFacts.acknowledgment_returns wait click Hwait Hclick).
    symmetry. by apply AckFacts.acknowledgment_returns. }
  intros _. reflexivity.
Qed.

Lemma acknowledgment_is_best_effort_witness :
  outcome (navigate_and_extract
             (with_effect AckWait (Raise (Exception "Timeout 60000ms exceeded"))
                (with_effect AckClick (Ret ()) (calm r1_page))) "1234-001-002")
  = outcome (navigate_and_extract
               (with_effect AckWait (Ret ()) (with_effect AckClick (Ret ()) (calm r1_page)))
               "1234-001-002").
Proof.
  apply (acknowledgment_is_best_effort (calm r1_page) "1234-001-002"
           (Raise (Exception "Timeout 60000ms exceeded")) (Ret ())).
  - intros e [= <-]. reflexivity.
  - intros e. discriminate.
Defined.

(** ** Faults the [except] block does not catch, and a failing close *)

(** X15. A fault that is no [Exception]. With the page open, when a step
    of the [try] block raises something that is not an [Exception], a
    cancellation for instance, the [except] block is skipped: no screenshot
    is taken, the browser is still closed, once, as the last call before
    the stop of the driver, and when both return the fault itself is raised
    by the scraper. *)
Theorem uncaught_fault_still_closes (w : world) (apn : string) (url : json)
    (e : exn) :
  page_opened w →
  outcome (navigate_and_extract w apn) = Raise e →
  is_Exception e = false →
  trace (scrape_and_extract_zones w apn url)
  = [Event PlaywrightStart true; Event Connect true;
     Event NewContext true; Event NewPage true]
    ++ trace (navigate_and_extract w apn)
    ++ [Event Close (is_ret (effect_outcome w Close));
        Event PlaywrightStop (is_ret (effect_outcome w PlaywrightStop))]
  ∧ calls_to Screenshot (trace (scrape_and_extract_zones w apn url)) = 0%nat
  ∧ calls_to Close (trace (scrape_and_extract_zones w apn url)) = 1%nat
  ∧ (effect_outcome w Close = Ret () →
     effect_outcome w PlaywrightStop = Ret () →
     outcome (scrape_and_extract_zones w apn url) = Raise e).
Proof.
  intros Hopen Hnav He.
  assert (guarded_route w apn = (Raise e, trace (navigate_and_extract w apn))) as Hguard.
  { unfold guarded_route, outcome, trace in *.
    destruct (navigate_and_extract w apn) as [r t]. simpl in Hnav. subst r.
    unfold try_except. by rewrite He. }
  rewrite (IdxFacts.scrape_opened w apn url Hopen), Hguard.
  rewrite !EffectFacts.trace_pair, EffectFacts.outcome_pair. split_and!.
  - done.
  - rewrite !EffectFacts.calls_to_app.
    by rewrite (EffectFacts.calls_to_emits _ Screenshot _ eq_refl
                  (IdxFacts.navigate_emits w apn)).
  - rewrite !EffectFacts.calls_to_app.
    by rewrite (EffectFacts.calls_to_emits _ Close _ eq_refl
                  (IdxFacts.navigate_emits w apn)).
  - by intros -> ->.
Qed.

Lemma uncaught_fault_still_closes_witness :
  outcome (scrape_and_extract_zones
             (failing_at Sleep (Exn false "CancelledError") (calm r1_page))
             "1234-001-002" (JStr "wss://connect"))
  = Raise (Exn false "CancelledError").
Proof.
  destruct (uncaught_fault_still_closes
              (failing_at Sleep (Exn false "CancelledError") (calm r1_page))
              "1234-001-002" (JStr "wss://connect") (Exn false "CancelledError"))
    as (_ & _ & _ & Hraise).
  - constructor; try reflexivity. simpl. discriminate.
  - reflexivity.
  - reflexivity.
  - apply Hraise; reflexivity.
Defined.

(** X16. A failing close. With the page open, an error of [browser.close]
    is what the scraper raises, whatever the [try] block produced: an
    extracted record or an error dictionary is lost; an error of the stop
    of the driver takes the place of both. *)
Theorem close_failure_replaces_result (w : world) (apn : string) (url : json)
    (e : exn) :
  page_opened w →
  effect_outcome w Close = Raise e →
  (effect_outcome w PlaywrightStop = Ret () →
   outcome (scrape_and_extract_zones w apn url) = Raise e)
  ∧ (∀ e', effect_outcome w PlaywrightStop = Raise e' →
           outcome (scrape_and_extract_zones w apn url) = Raise e')
  ∧ calls_to Close (trace (scrape_and_extract_zones w apn url)) = 1%nat.
Proof.
  intros Hopen Hclose.
  pose proof (IdxFacts.close_once_opened w apn url Hopen) as Honce.
  rewrite (IdxFacts.scrape_opened w apn url Hopen) in *. rewrite Hclose.
  rewrite EffectFacts.outcome_pair. split_and!.
  - by intros ->.
  - by intros e' ->.
  - by rewrite Hclose in Honce.
Qed.

Lemma close_failure_replaces_result_witness :
  outcome (navigate_and_extract (failing_at Close (Exception "Browser closed")
                                   (calm r1_page)) "1234-001-002")
  = Ret (zoning_record "1234-001-002" "https://x.com/ParcelProfileDetail2"
           ["R1"] "Not Found")
  ∧ outcome (scrape_and_extract_zones
               (failing_at Close (Exception "Browser closed") (calm r1_page))
               "1234-001-002" (JStr "wss://connect"))
    = Raise (Exception "Browser closed").
Proof.
  split; [reflexivity |].
  destruct (close_failure_replaces_result
              (failing_at Close (Exception "Browser closed") (calm r1_page))
              "1234-001-002" (JStr "wss://connect") (Exception "Browser closed"))
    as (Hraise & _ & _).
  - constructor; try reflexivity. simpl. discriminate.
  - reflexivity.
  - apply Hraise. reflexivity.
Defined.

(** ** The order of the calls *)

Module OrderFacts.

Import EffectFacts.

Section Laws.

Context {A B : Type}.

Lemma in_order_app_bind (l1 l2 : list site) (m : M A) (f : A → M B) :
  in_order l1 m → (∀ a, in_order l2 (f a)) → in_order (l1 ++ l2) (m ≫= f).
Proof.
  unfold in_order. intros Hm Hf. rewrite trace_bind, fmap_app.
  apply sublist_app; [done |].
  destruct (outcome m); [apply Hf | apply sublist_nil_l].
Qed.

Lemma in_order_call_bind (s : site) (l : list site) (o : result A) (f : A → M B) :
  (∀ a, in_order l (f a)) → in_order (s :: l) (call s o ≫= f).
Proof.
  intros Hf. apply (in_order_app_bind [s] l); [| done].
  unfold in_order. simpl. done.
Qed.

Lemma in_order_pure_bind (l : list site) (r : result A) (f : A → M B) :
  (∀ a, in_order l (f a)) → in_order l (pure r ≫= f).
Proof.
  intros Hf. apply (in_order_app_bind [] l); [| done]. unfold in_order. simpl. done.
Qed.

End Laws.

Section Laws1.

Context {A : Type}.

Lemma in_order_silent (l : list site) (m : M A) : trace m = [] → in_order l m.
Proof. unfold in_order. intros ->. apply sublist_nil_l. Qed.

Lemma in_order_call (s : site) (l : list site) (o : result A) :
  in_order (s :: l) (call s o).
Proof. unfold in_order. simpl. apply sublist_skip, sublist_nil_l. Qed.

Lemma in_order_skip (s : site) (l : list site) (m : M A) :
  in_order l m → in_order (s :: l) m.
Proof. unfold in_order. apply sublist_cons. Qed.

Lemma in_order_weaken (l l' : list site) (m : M A) :
  l `sublist_of` l' → in_order l m → in_order l' m.
Proof. unfold in_order. intros Hl Hm. by etrans. Qed.

Lemma in_order_try_except (l1 l2 : list site) (body : M A) (handler : exn → M A) :
  in_order l1 body → (∀ e, in_order l2 (handler e)) →
  in_order (l1 ++ l2) (try_except body handler).
Proof.
  unfold in_order. intros Hb Hh. rewrite trace_try_except, fmap_app.
  apply sublist_app; [done |].
  destruct (outcome body) as [a | e]; [apply sublist_nil_l |].
  destruct (is_Exception e); [apply Hh | apply sublist_nil_l].
Qed.

Lemma in_order_try_finally (l1 l2 : list site) (body : M A) (cleanup : M unit) :
  in_order l1 body → in_order l2 cleanup →
  in_order (l1 ++ l2) (try_finally body cleanup).
Proof.
  unfold in_order. intros Hb Hc.
  change (trace (try_finally body cleanup)) with (trace body ++ trace cleanup).
  rewrite fmap_app. by apply sublist_app.
Qed.

End Laws1.

Lemma calls_to_absent (s : site) (t : list event) :
  s ∉ ev_site <$> t → calls_to s t = 0%nat.
Proof.
  unfold calls_to. induction t as [|ev t IH]; [done |].
  rewrite fmap_cons, not_elem_of_cons, filter_cons. intros [Hne Hnot].
  rewrite decide_False by congruence. by apply IH.
Qed.

(** A site that occurs once among the sites of a trace is called once. *)
Lemma calls_to_NoDup (s : site) (t : list event) :
  NoDup (ev_site <$> t) → (calls_to s t ≤ 1)%nat.
Proof.
  induction t as [|ev t IH]; [unfold calls_to; simpl; lia |].
  rewrite fmap_cons, NoDup_cons. intros [Hfresh Hnodup].
  change (ev :: t) with ([ev] ++ t). rewrite calls_to_app.
  destruct (decide (ev_site ev = s)) as [<- | Hne].
  - rewrite (calls_to_absent _ t Hfresh). unfold calls_to.
    rewrite filter_cons, decide_True by done. simpl. lia.
  - specialize (IH Hnodup). unfold calls_to at 1.
    rewrite filter_cons, decide_False by done. simpl. lia.
Qed.

(** A site outside the order of a computation is never called by it. *)
Lemma in_order_never {A} (s : site) (l : list site) (m : M A) :
  in_order l m → s ∉ l → calls_to s (trace m) = 0%nat.
Proof.
  unfold in_order. intros Hsub Hnot. apply calls_to_absent.
  intros Hin. apply Hnot. eapply sublist_submseteq, elem_of_submseteq in Hsub; done.
Qed.

Lemma in_order_once {A} (s : site) (l : list site) (m : M A) :
  NoDup l → in_order l m → (calls_to s (trace m) ≤ 1)%nat.
Proof.
  unfold in_order. intros Hnodup Hsub.
  apply calls_to_NoDup. by eapply sublist_NoDup.
Qed.

Section Program.

Variable w : world.

Lemma navigate_in_order (apn : string) :
  in_order route_order (Idx.navigate_and_extract w apn).
Proof.
  unfold Idx.navigate_and_extract, route_order.
  do 3 (apply in_order_call_bind; intros ?).
  destruct (Text.contains _ _).
  { by apply in_order_silent. }
  apply in_order_pure_bind; intros _.
  apply (in_order_app_bind [AckWait; AckClick]).
  - apply (in_order_try_except [AckWait; AckClick] []).
    + apply in_order_call_bind; intros _. apply in_order_call.
    + intros e. by apply in_order_silent.
  - intros _. do 8 (apply in_order_call_bind; intros ?).
    apply in_order_pure_bind; intros href_cleaned.
    do 4 (apply in_order_call_bind; intros ?).
    by apply in_order_silent.
Qed.

Lemma guarded_route_in_order (apn : string) :
  in_order (route_order ++ [Screenshot]) (Idx.guarded_route w apn).
Proof.
  apply in_order_try_except; [apply navigate_in_order |].
  intros e. apply in_order_call_bind; intros _. by apply in_order_silent.
Qed.

(** The body of the [async with] block, lines 157-286. *)
Lemma page_in_order (apn : string) :
  in_order page_order
    (call Connect (effect_outcome w Connect);;
     user_agent ← pure (Idx.get_random_user_agent w);
     call NewContext (effect_outcome w NewContext);;
     call NewPage (effect_outcome w NewPage);;
     try_finally (Idx.guarded_route w apn) (call Close (effect_outcome w Close))).
Proof.
  unfold page_order.
  apply in_order_call_bind; intros _. apply in_order_pure_bind; intros _.
  do 2 (apply in_order_call_bind; intros _).
  apply (in_order_try_finally (route_order ++ [Screenshot]) [Close]);
    [apply guarded_route_in_order | apply in_order_call].
Qed.

Lemma scrape_in_order (apn : string) (url : json) :
  in_order (PlaywrightStart :: page_order ++ [PlaywrightStop])
    (Idx.scrape_and_extract_zones w apn url).
Proof.
  unfold Idx.scrape_and_extract_zones.
  apply in_order_call_bind; intros _.
  apply in_order_try_finally; [apply page_in_order | apply in_order_call].
Qed.

Lemma web_in_order (apn : string) :
  in_order (BrokerPost :: PlaywrightStart :: page_order ++ [PlaywrightStop])
    (Idx.get_web_scraped_data w apn).
Proof.
  unfold Idx.get_web_scraped_data, Idx.create_browserbase_session.
  rewrite <- (app_nil_l (BrokerPost :: _)).
  apply (in_order_app_bind [BrokerPost]).
  - apply (in_order_call_bind BrokerPost []). intros response.
    destruct (bool_decide _); by apply in_order_silent.
  - intros session. destruct (negb _); [by apply in_order_silent |].
    apply in_order_pure_bind; intros url. apply scrape_in_order.
Qed.

Lemma endpoint_in_order (apn : string) :
  in_order source_order (Idx.get_parcel_details_and_explanation w apn).
Proof.
  unfold Idx.get_parcel_details_and_explanation, Idx.parcel_local_search.
  apply (in_order_app_bind [SqlFetchone] (tail source_order)).
  { apply (in_order_call_bind SqlFetchone []). intros row. by apply in_order_silent. }
  intros parcel_data. destruct (Idx.if_truthy parcel_data) as [d |].
  - apply (in_order_weaken [ChromaQuery; Generate]).
    { do 2 apply sublist_skip. apply sublist_nil_l. }
    apply (in_order_app_bind [ChromaQuery] [Generate]).
    + apply (in_order_try_except [ChromaQuery] []).
      * apply (in_order_call_bind ChromaQuery []). intros r. by apply in_order_silent.
      * intros e. by apply in_order_silent.
    + intros context. apply (in_order_call_bind Generate []).
      intros explanation. by apply in_order_silent.
  - do 2 apply in_order_skip.
    apply (in_order_app_bind (tail (tail (tail source_order))) []).
    + apply (in_order_weaken _ _ _ (reflexivity _)), web_in_order.
    + intros web_data. by apply in_order_silent.
Qed.

Lemma source_order_NoDup : NoDup source_order.
Proof. apply (bool_decide_unpack (NoDup source_order)). by vm_compute. Qed.

End Program.

End OrderFacts.

(** X17.  Along every run of the endpoint the external calls are made in
    the order of the source text and none is made twice: the sites called
    form a subsequence of [source_order], so that nothing is retried and
    nothing that comes earlier in the text is called after something that
    comes later. *)
Theorem calls_follow_source_order (w : world) (apn : string) :
  in_order source_order (Idx.get_parcel_details_and_explanation w apn)
  ∧ ∀ s, (calls_to s (trace (Idx.get_parcel_details_and_explanation w apn)) ≤ 1)%nat.
Proof.
  split; [apply OrderFacts.endpoint_in_order |].
  intros s. apply (OrderFacts.in_order_once s source_order).
  - apply OrderFacts.source_order_NoDup.
  - apply OrderFacts.endpoint_in_order.
Qed.

(** ** Clean-up and set-up *)

Module CleanupFacts.

Import EffectFacts OrderFacts.

Section Program.

Variable w : world.

Ltac pick_sites :=
  unfold in_order; cbn;
  repeat first [apply sublist_nil_l | apply sublist_skip | apply sublist_cons].

(** A set-up that fails goes from the failing line to the end of the
    [async with] block. *)
Lemma setup_failure_in_order (apn : string) (url : json) :
  ¬ page_opened w →
  in_order [PlaywrightStart; Connect; NewContext; NewPage; PlaywrightStop]
    (Idx.scrape_and_extract_zones w apn url).
Proof.
  intros Hnot. unfold Idx.scrape_and_extract_zones, Idx.get_random_user_agent.
  destruct (effect_outcome w PlaywrightStart) as [[] | e] eqn:Hstart; [| pick_sites].
  destruct (effect_outcome w Connect) as [[] | e] eqn:Hconnect; [| pick_sites].
  destruct (user_agents w) as [|ua uas] eqn:Hagents; [pick_sites |].
  destruct (effect_outcome w NewContext) as [[] | e] eqn:Hcontext; [| pick_sites].
  destruct (effect_outcome w NewPage) as [[] | e] eqn:Hpage; [| pick_sites].
  destruct Hnot. constructor; try done. by rewrite Hagents.
Qed.

(** The driver is stopped once when it was started and not at all
    otherwise. *)
Lemma stop_count (apn : string) (url : json) :
  calls_to PlaywrightStop (trace (Idx.scrape_and_extract_zones w apn url))
  = if is_ret (effect_outcome w PlaywrightStart) then 1%nat else 0%nat.
Proof.
  unfold Idx.scrape_and_extract_zones. rewrite trace_bind.
  destruct (effect_outcome w PlaywrightStart) as [[] | e] eqn:Hstart;
    unfold outcome at 1; cbn [call fst is_ret]; [| reflexivity].
  change (trace (try_finally ?body ?cleanup)) with (trace body ++ trace cleanup).
  rewrite !calls_to_app.
  rewrite (in_order_never PlaywrightStop page_order _ (page_in_order w apn)).
  - reflexivity.
  - apply (bool_decide_unpack (PlaywrightStop ∉ page_order)). by vm_compute.
Qed.

End Program.

End CleanupFacts.

(** X18.  The clean-up of [scrape_and_extract_zones] mirrors its set-up:
    the driver is stopped once when it was started and never otherwise;
    [browser.close] is called once when the page was opened and never
    otherwise; and a screenshot is taken only of a page that was opened,
    and at most once. *)
Theorem cleanup_mirrors_setup (w : world) (apn : string) (url : json) :
  calls_to PlaywrightStop (trace (Idx.scrape_and_extract_zones w apn url))
  = (if is_ret (effect_outcome w PlaywrightStart) then 1%nat else 0%nat)
  ∧ ((page_opened w
      ∧ calls_to Close (trace (Idx.scrape_and_extract_zones w apn url)) = 1%nat)
     ∨ (¬ page_opened w
        ∧ calls_to Close (trace (Idx.scrape_and_extract_zones w apn url)) = 0%nat))
  ∧ (calls_to Screenshot (trace (Idx.scrape_and_extract_zones w apn url))
     ≤ calls_to Close (trace (Idx.scrape_and_extract_zones w apn url)))%nat.
Proof.
  split; [apply CleanupFacts.stop_count |].
  assert (¬ page_opened w →
          calls_to Screenshot (trace (Idx.scrape_and_extract_zones w apn url)) = 0%nat)
    as Hnever.
  { intros Hnot.
    apply (OrderFacts.in_order_never Screenshot _ _
             (CleanupFacts.setup_failure_in_order w apn url Hnot)).
    apply (bool_decide_unpack (Screenshot ∉ _)). by vm_compute. }
  destruct (IdxFacts.close_only_when_opened w apn url) as [[Hopen Hclose] | [Hnot Hclose]].
  - split; [by left |]. rewrite Hclose.
    apply (OrderFacts.in_order_once Screenshot
             (PlaywrightStart :: page_order ++ [PlaywrightStop])).
    + apply (bool_decide_unpack (NoDup _)). by vm_compute.
    + apply OrderFacts.scrape_in_order.
  - split; [by right |]. rewrite (Hnever Hnot), Hclose. lia.
Qed.

(** ** The integer conversion *)

Module IntFacts.

Lemma length_append (s1 s2 : string) :
  String.length (s1 +:+ s2) = (String.length s1 + String.length s2)%nat.
Proof.
  induction s1 as [|c s1 IH]; [done |].
  change (String c s1 +:+ s2) with (String c (s1 +:+ s2)).
  cbn [String.length]. by rewrite IH.
Qed.

Lemma length_substring (n : nat) (s : string) :
  (String.length (substring 0 n s) ≤ n)%nat.
Proof.
  revert s. induction n as [|n IH]; intros [|c s]; cbn; try lia.
  specialize (IH s). lia.
Qed.

(** The message of a string that is no literal has at most 240
    characters, however long the string is. *)
Lemma invalid_literal_message_bounded (s : string) :
  (String.length (str (ValueError_int s InvalidLiteral)) ≤ 240)%nat.
Proof.
  unfold ValueError_int. cbn [str]. rewrite length_append.
  pose proof (length_substring 200 (repr s)).
  change (String.length "invalid literal for int() with base 10: ") with 40%nat.
  lia.
Qed.

(** The digit limit: 4300 digits are converted and 4301 are not, be they
    zeros; the limit is checked before what follows the digits, and after
    the underscores among them. *)
Lemma digit_limit :
  (∃ z, int_of_str (repeated 4300 "1") = inr z)
  ∧ int_of_str (repeated 4301 "0") = inl (ExceedsLimit 4301)
  ∧ int_of_str (repeated 4301 "1" +:+ "x") = inl (ExceedsLimit 4301)
  ∧ int_of_str (repeated 4300 "1" +:+ "x") = inl InvalidLiteral
  ∧ int_of_str (repeated 4301 "1" +:+ "_") = inl InvalidLiteral
  ∧ str (ValueError_int (repeated 4301 "0") (ExceedsLimit 4301))
    = "Exceeds the limit (4300 digits) for integer string conversion: value has 4301 digits; use sys.set_int_max_str_digits() to increase the limit".
Proof.
  split_and!; try by vm_compute.
  destruct (int_of_str (repeated 4300 "1")) as [err | z] eqn:H; [| by exists z].
  by vm_compute in H.
Qed.

End IntFacts.
